(** * chat-server.js: the Socket.IO chat relay

    A shallow embedding of the connection handlers of [src/chat-server.js]
    (user:join, message:send, typing:start/stop, message:like, disconnect,
    messages:history) together with the two process-wide tables
    [activeUsers] and [userRooms].

    Each handler is an [async] function: it runs synchronously up to an
    [await] on a Firestore call, is suspended, and is resumed with the
    outcome of the call.  Handlers are therefore written as resumptions
    ([prog]): a tree of synchronous steps whose [Await] nodes carry the
    continuation.  Two semantics are given: [exec], which runs one handler
    to completion against a model of the store, and [istep], which
    interleaves the synchronous blocks of any number of pending handlers;
    [run_schedule] executes a chosen interleaving against the store.  The
    registry endpoint [GET /api/chat/users] is [api_chat_users]. *)

From Stdlib Require Import ZArith.
From stdpp Require Import gmap strings list sorting pretty.

Local Open Scope string_scope.
Local Open Scope list_scope.

(** ** Data model *)

(** A Firestore time field: the [FieldValue.serverTimestamp()] sentinel,
    which the store replaces when it commits the write, or a concrete
    instant in milliseconds ([new Date()]). *)
Inductive timeval :=
  | ServerTimestamp
  | Date (ms : Z).

(** The value kept in [activeUsers] for a socket. *)
Record session := {
  s_userId : string;
  s_userName : string;
  s_userEmail : option string;
  s_avatar : option string;
  s_socketId : string;
  s_joinedAt : Z
}.

(** The [message] object built by the message:send handler. *)
Record message := {
  m_id : string;
  m_content : string;
  m_type : string;
  m_userId : string;
  m_userName : string;
  m_userEmail : option string;
  m_avatar : option string;
  m_timestamp : timeval;
  m_roomId : string;
  m_likes : list string;
  m_replies : list string
}.

(** A document of the [chatMessages] collection:
    [{...message, timestamp, createdAt}]. *)
Record chat_doc := {
  d_data : message;
  d_createdAt : Z
}.

(** A document of the [chatPresence] collection. *)
Record presence := {
  p_isOnline : bool;
  p_lastSeen : timeval;
  p_socketId : string;
  p_userName : string;
  p_userEmail : option string;
  p_avatar : option string
}.

(** Incoming payloads.  A field with a JavaScript default or an [||]
    fallback is optional. *)
Record join_data := {
  j_userId : string;
  j_userName : string;
  j_userEmail : option string;
  j_avatar : option string
}.

Record send_data := {
  sd_content : string;
  sd_type : option string;
  sd_roomId : option string
}.

Record typing_data := { t_roomId : option string }.

Record like_data := {
  l_messageId : string;
  l_action : string
}.

Record history_data := {
  h_roomId : option string;
  h_limit : option nat;
  h_lastMessageId : option string
}.

(** An element of the messages:history answer:
    [{...data, firebaseId: doc.id, timestamp: data.createdAt.toDate()}]. *)
Record history_item := {
  hi_doc : chat_doc;
  hi_firebaseId : string
}.

(** Outgoing Socket.IO events. *)
Inductive payload :=
  | UserJoined (userId userName : string) (userEmail avatar : option string)
               (msg : string)
  | UsersList (roomUsers : list session)
  | MessageNew (m : message) (firebaseId : string)
  | TypingStart (userId userName : string)
  | TypingStop (userId userName : string)
  | MessageLiked (messageId : string) (likes : list string)
                 (userId action : string)
  | UserLeft (userId userName msg : string)
  | MessagesHistory (items : list history_item)
  | Error (msg : string).

(** Who receives an emitted event. *)
Inductive target :=
  | ToSocket (sid : string)                (* socket.emit *)
  | ToRoomExcept (room sid : string)       (* socket.to(room).emit *)
  | ToRoom (room : string).                (* io.to(room).emit *)

(** The console lines of the handlers, one constructor per call site. *)
Inductive console :=
  | LogJoined (userName userId : string)
  | LogSent (userName roomId : string)
  | LogDisconnected (userName : string)
  | LogHistory (n : nat) (roomId : string)
  | ErrJoin
  | ErrSend
  | ErrLike
  | ErrDisconnect
  | ErrHistory.

Inductive effect :=
  | SocketJoin (sid room : string)         (* socket.join(room) *)
  | Emit (to : target) (p : payload)
  | Console (line : console).

(** ** The in-memory tables

    [activeUsers] and [userRooms] are JavaScript [Map]s: they iterate in
    insertion order, [set] on a present key keeps its position, and
    [delete] removes the entry. *)
Section JsMap.
Context {V : Type}.

Fixpoint map_get (k : string) (m : list (string * V)) : option V :=
  match m with
  | [] => None
  | (k', v) :: m => if decide (k' = k) then Some v else map_get k m
  end.

Fixpoint map_set (k : string) (v : V) (m : list (string * V))
  : list (string * V) :=
  match m with
  | [] => [(k, v)]
  | (k', v') :: m =>
      if decide (k' = k) then (k, v) :: m else (k', v') :: map_set k v m
  end.

Fixpoint map_delete (k : string) (m : list (string * V))
  : list (string * V) :=
  match m with
  | [] => []
  | (k', v') :: m =>
      if decide (k' = k) then m else (k', v') :: map_delete k m
  end.

Definition map_values (m : list (string * V)) : list V := m.*2.

Definition map_has (k : string) (m : list (string * V)) : Prop :=
  is_Some (map_get k m).
End JsMap.

Record mem := {
  activeUsers : list (string * session);
  userRooms : list (string * list string)
}.

Definition mem_init : mem := {| activeUsers := []; userRooms := [] |}.

(** ** Requests to the outside world *)

Inductive result (A : Type) :=
  | Ok (a : A)
  | Err.
Arguments Ok {A} a.
Arguments Err {A}.

(** Synchronous reads of the clock and of the random generator. *)
Inductive query : Type -> Type :=
  | DateNow : query Z                      (* Date.now(), new Date() *)
  | MathRandom : query string.             (* Math.random().toString(36).substr(2, 9) *)

(** Firestore calls, indexed by what they resolve to. *)
Inductive request : Type -> Type :=
  | PresenceSet (userId : string) (p : presence) : request unit
  | PresenceUpdate (userId : string) (isOnline : bool) (lastSeen : timeval)
      : request unit
  | MessagesAdd (d : chat_doc) : request string
  | MessagesGet (id : string) : request (option chat_doc)
  | MessagesUpdateLikes (id : string) (likes : list string) : request unit
  | MessagesQuery (limit : nat) (startAfter : option (string * chat_doc))
      : request (list (string * chat_doc)).

(** ** Handlers as resumptions *)

Inductive prog :=
  | Ret
  | Read (k : mem -> prog)
  | Write (m : mem) (k : prog)
  | Out (e : effect) (k : prog)
  | Ask {A : Type} (q : query A) (k : A -> prog)
  | Await {A : Type} (r : request A) (k : result A -> prog).

Declare Scope prog_scope.
Delimit Scope prog_scope with prog.
Bind Scope prog_scope with prog.

Notation "'out' e >> k" := (Out e k)
  (at level 10, e at level 9, k at level 200) : prog_scope.
Notation "'write' m >> k" := (Write m k)
  (at level 10, m at level 9, k at level 200) : prog_scope.
Notation "'let*' x ':=' 'ask' q 'in' k" := (Ask q (fun x => k))
  (at level 10, x name, q at level 9, k at level 200) : prog_scope.
Notation "'let*' m ':=' 'read' 'in' k" := (Read (fun m => k))
  (at level 10, m name, k at level 200) : prog_scope.
(** [let* x := await r orelse h in k]: a rejected promise transfers control
    to the handler's [catch] block [h]. *)
Notation "'let*' x ':=' 'await' r 'orelse' h 'in' k" :=
  (Await r (fun res => match res with Ok x => k | Err => h end))
  (at level 10, x name, r at level 9, h at level 9, k at level 200)
  : prog_scope.

Local Open Scope prog_scope.

Definition public_hub : string := "public-hub".

(** [a || b] on strings: the empty string is falsy. *)
Definition str_or (a : option string) (b : string) : string :=
  match a with
  | Some s => if decide (s = "") then b else s
  | None => b
  end.

(** A destructuring default [x = d]: only [undefined] takes the default. *)
Definition or_default {A} (a : option A) (d : A) : A :=
  match a with Some x => x | None => d end.

(** [Array.prototype.includes] on an array of strings. *)
Definition includes (l : list string) (x : string) : bool :=
  bool_decide (x ∈ l).

(** [userRooms.get(user.socketId)?.includes('public-hub')] *)
Definition in_public_hub (m : mem) (u : session) : bool :=
  match map_get (s_socketId u) (userRooms m) with
  | Some rooms => includes rooms public_hub
  | None => false
  end.

(** Emit one event per room ([rooms.forEach]). *)
Fixpoint for_each (rooms : list string) (f : string -> effect) (k : prog)
  : prog :=
  match rooms with
  | [] => k
  | r :: rooms => out (f r) >> for_each rooms f k
  end.

(** The value stored in [activeUsers] by user:join. *)
Definition new_session (sid : string) (userData : join_data) (joinedAt : Z)
  : session :=
  {| s_userId := j_userId userData;
     s_userName := j_userName userData;
     s_userEmail := j_userEmail userData;
     s_avatar := j_avatar userData;
     s_socketId := sid;
     s_joinedAt := joinedAt |}.

(** The document user:join writes to [chatPresence]. *)
Definition online_record (sid : string) (userData : join_data) : presence :=
  {| p_isOnline := true;
     p_lastSeen := ServerTimestamp;
     p_socketId := sid;
     p_userName := j_userName userData;
     p_userEmail := j_userEmail userData;
     p_avatar := j_avatar userData |}.

(** The user:joined notification. *)
Definition joined_notice (userData : join_data) : payload :=
  UserJoined (j_userId userData) (j_userName userData)
    (j_userEmail userData) (j_avatar userData)
    (j_userName userData +:+ " joined the chat").

(** user:join *)
Definition user_join (sid : string) (userData : join_data) : prog :=
  let catch :=
    (out (Console ErrJoin) >>
     out (Emit (ToSocket sid) (Error "Failed to join chat")) >>
     Ret) in
  let* joinedAt := ask DateNow in
  let* m := read in
  write {| activeUsers :=
             map_set sid (new_session sid userData joinedAt) (activeUsers m);
           userRooms := userRooms m |} >>
  out (SocketJoin sid public_hub) >>
  let* m := read in
  write {| activeUsers := activeUsers m;
           userRooms := map_set sid [public_hub] (userRooms m) |} >>
  let* _ := await (PresenceSet (j_userId userData) (online_record sid userData))
            orelse catch in
  out (Emit (ToRoomExcept public_hub sid) (joined_notice userData)) >>
  let* m := read in
  let roomUsers := filter (fun u => in_public_hub m u = true)
                          (map_values (activeUsers m)) in
  out (Emit (ToSocket sid) (UsersList roomUsers)) >>
  out (Console (LogJoined (j_userName userData) (j_userId userData))) >>
  Ret.

Definition with_timestamp (t : timeval) (m : message) : message :=
  {| m_id := m_id m; m_content := m_content m; m_type := m_type m;
     m_userId := m_userId m; m_userName := m_userName m;
     m_userEmail := m_userEmail m; m_avatar := m_avatar m;
     m_timestamp := t; m_roomId := m_roomId m; m_likes := m_likes m;
     m_replies := m_replies m |}.

Definition with_likes (likes : list string) (m : message) : message :=
  {| m_id := m_id m; m_content := m_content m; m_type := m_type m;
     m_userId := m_userId m; m_userName := m_userName m;
     m_userEmail := m_userEmail m; m_avatar := m_avatar m;
     m_timestamp := m_timestamp m; m_roomId := m_roomId m; m_likes := likes;
     m_replies := m_replies m |}.

(** The [message] object of message:send, before it is persisted. *)
Definition new_message (user : session) (messageData : send_data)
    (now : Z) (rnd : string) : message :=
  {| m_id := "msg_" +:+ pretty now +:+ "_" +:+ rnd;
     m_content := sd_content messageData;
     m_type := or_default (sd_type messageData) "text";
     m_userId := s_userId user;
     m_userName := s_userName user;
     m_userEmail := s_userEmail user;
     m_avatar := s_avatar user;
     m_timestamp := ServerTimestamp;
     m_roomId := or_default (sd_roomId messageData) public_hub;
     m_likes := [];
     m_replies := [] |}.

(** message:send *)
Definition message_send (sid : string) (messageData : send_data) : prog :=
  let catch :=
    (out (Console ErrSend) >>
     out (Emit (ToSocket sid) (Error "Failed to send message")) >>
     Ret) in
  let* m := read in
  match map_get sid (activeUsers m) with
  | None =>
      out (Emit (ToSocket sid) (Error "User not authenticated")) >>
      Ret
  | Some user =>
      let roomId := or_default (sd_roomId messageData) public_hub in
      let* now := ask DateNow in
      let* rnd := ask MathRandom in
      let message := new_message user messageData now rnd in
      let* createdAt := ask DateNow in
      let* firebaseId :=
        await (MessagesAdd
                 {| d_data := with_timestamp ServerTimestamp message;
                    d_createdAt := createdAt |})
        orelse catch in
      let* sentAt := ask DateNow in
      out (Emit (ToRoom roomId)
             (MessageNew (with_timestamp (Date sentAt) message) firebaseId)) >>
      out (Console (LogSent (s_userName user) roomId)) >>
      Ret
  end.

(** typing:start and typing:stop (synchronous, no [try]) *)
Definition typing_start (sid : string) (data : typing_data) : prog :=
  let* m := read in
  match map_get sid (activeUsers m) with
  | Some user =>
      out (Emit (ToRoomExcept (str_or (t_roomId data) public_hub) sid)
             (TypingStart (s_userId user) (s_userName user))) >>
      Ret
  | None => Ret
  end.

Definition typing_stop (sid : string) (data : typing_data) : prog :=
  let* m := read in
  match map_get sid (activeUsers m) with
  | Some user =>
      out (Emit (ToRoomExcept (str_or (t_roomId data) public_hub) sid)
             (TypingStop (s_userId user) (s_userName user))) >>
      Ret
  | None => Ret
  end.

(** The mutation of the [likes] array in the message:like handler:
    [push] when the action is 'like' and the user is not yet included,
    [filter] when it is 'unlike', nothing for any other action. *)
Definition react (action userId : string) (likes : list string)
  : list string :=
  if bool_decide (action = "like") && negb (includes likes userId)
  then likes ++ [userId]
  else if bool_decide (action = "unlike")
  then filter (fun id => id <> userId) likes
  else likes.

(** message:like *)
Definition message_like (sid : string) (data : like_data) : prog :=
  let catch := (out (Console ErrLike) >> Ret) in
  let* m := read in
  match map_get sid (activeUsers m) with
  | None => Ret
  | Some user =>
      let messageId := l_messageId data in
      let action := l_action data in
      let* messageDoc := await (MessagesGet messageId) orelse catch in
      match messageDoc with
      | None => Ret
      | Some messageData =>
          (* [messageData.likes || []]: an array is truthy *)
          let likes := m_likes (d_data messageData) in
          let likes := react action (s_userId user) likes in
          let* _ := await (MessagesUpdateLikes messageId likes)
                    orelse catch in
          out (Emit (ToRoom (str_or (Some (m_roomId (d_data messageData)))
                                    public_hub))
                 (MessageLiked messageId likes (s_userId user) action)) >>
          Ret
      end
  end.

(** The user:left notification. *)
Definition left_notice (user : session) : payload :=
  UserLeft (s_userId user) (s_userName user)
    (s_userName user +:+ " left the chat").

(** disconnect *)
Definition disconnect (sid : string) : prog :=
  let catch := (out (Console ErrDisconnect) >> Ret) in
  let* m := read in
  match map_get sid (activeUsers m) with
  | None => Ret
  | Some user =>
      let* _ := await (PresenceUpdate (s_userId user) false ServerTimestamp)
                orelse catch in
      let* m := read in
      let rooms := or_default (map_get sid (userRooms m)) [] in
      for_each rooms
        (fun room => Emit (ToRoomExcept room sid) (left_notice user))
        (let* m := read in
         write {| activeUsers := map_delete sid (activeUsers m);
                  userRooms := userRooms m |} >>
         let* m := read in
         write {| activeUsers := activeUsers m;
                  userRooms := map_delete sid (userRooms m) |} >>
         out (Console (LogDisconnected (s_userName user))) >>
         Ret)
  end.

(** [{...data, firebaseId: doc.id, timestamp: data.createdAt?.toDate() || new Date()}]:
    every document returned by a query ordered on [createdAt] has that
    field, and a [Date] is truthy. *)
Definition history_entry (doc : string * chat_doc) : history_item :=
  {| hi_doc := {| d_data := with_timestamp (Date (d_createdAt doc.2))
                              (d_data doc.2);
                  d_createdAt := d_createdAt doc.2 |};
     hi_firebaseId := doc.1 |}.

(** The body of [snapshot.forEach]: keep the documents of the room. *)
Definition room_messages (roomId : string) (snapshot : list (string * chat_doc))
  : list history_item :=
  history_entry <$> filter (fun doc => m_roomId (d_data doc.2) = roomId) snapshot.

(** messages:history *)
Definition messages_history (sid : string) (data : history_data) : prog :=
  let catch :=
    (out (Console ErrHistory) >>
     out (Emit (ToSocket sid) (Error "Failed to load message history")) >>
     Ret) in
  let roomId := or_default (h_roomId data) public_hub in
  let limit := or_default (h_limit data) 50 in
  let run_query (startAfter : option (string * chat_doc)) :=
    (let* snapshot := await (MessagesQuery (limit * 2) startAfter)
                      orelse catch in
     let messages := room_messages roomId snapshot in
     let limitedMessages := reverse (take limit messages) in
     out (Emit (ToSocket sid) (MessagesHistory limitedMessages)) >>
     out (Console (LogHistory (length limitedMessages) roomId)) >>
     Ret) in
  match h_lastMessageId data with
  | Some lastMessageId =>
      if decide (lastMessageId = "") then run_query None
      else
        let* lastDoc := await (MessagesGet lastMessageId) orelse catch in
        match lastDoc with
        | Some d => run_query (Some (lastMessageId, d))
        | None => run_query None
        end
  | None => run_query None
  end.

(** The events a connection can deliver. *)
Inductive event :=
  | UserJoin (userData : join_data)
  | MessageSend (messageData : send_data)
  | TypingStartEv (data : typing_data)
  | TypingStopEv (data : typing_data)
  | MessageLike (data : like_data)
  | Disconnect
  | MessagesHistoryEv (data : history_data).

Definition handler (sid : string) (ev : event) : prog :=
  match ev with
  | UserJoin d => user_join sid d
  | MessageSend d => message_send sid d
  | TypingStartEv d => typing_start sid d
  | TypingStopEv d => typing_stop sid d
  | MessageLike d => message_like sid d
  | Disconnect => disconnect sid
  | MessagesHistoryEv d => messages_history sid d
  end.

(** ** The durable store

    The two Firestore collections, each a finite map from document id to
    document.  The calls follow the contract the handlers rely on:
    [set] upserts, [update] rejects when the document is missing, [add]
    creates a document under a fresh automatic id, [get] returns a
    snapshot ([None] when [exists] is false), and the query scans on
    [createdAt] descending (ties by document id, same direction),
    starts strictly after the cursor document and stops at the limit. *)
Record store := {
  chatPresence : gmap string presence;
  chatMessages : gmap string chat_doc
}.

Definition store_init : store := {| chatPresence := ∅; chatMessages := ∅ |}.

(** What the environment decides, indexed by the number of requests made
    so far: whether a store call is rejected, the clock, the random
    suffix, the automatic document id and the commit time of a write. *)
Record env := {
  fails : nat -> bool;
  clock : nat -> Z;
  random : nat -> string;
  autoId : nat -> string;
  serverTime : nat -> Z
}.

Definition resolve (t : Z) (v : timeval) : timeval :=
  match v with
  | ServerTimestamp => Date t
  | Date ms => Date ms
  end.

(** [orderBy('createdAt', 'desc')]: [a] is scanned no later than [b]. *)
Definition newer_first (a b : string * chat_doc) : bool :=
  (d_createdAt b.2 <? d_createdAt a.2)%Z
  || ((d_createdAt a.2 =? d_createdAt b.2)%Z && String.leb b.1 a.1).

Definition scan_order : relation (string * chat_doc) :=
  fun a b => newer_first a b = true.

#[global] Instance scan_order_dec : RelDecision scan_order.
Proof. intros a b. unfold scan_order. apply _. Defined.

Definition scan (c : gmap string chat_doc) : list (string * chat_doc) :=
  merge_sort scan_order (map_to_list c).

(** [startAfter(cursor)]: the documents scanned strictly after it. *)
Definition start_after (cursor : option (string * chat_doc))
    (l : list (string * chat_doc)) : list (string * chat_doc) :=
  match cursor with
  | Some c => filter (fun x => newer_first x c = false) l
  | None => l
  end.

Definition run_query (limit : nat) (cursor : option (string * chat_doc))
    (c : gmap string chat_doc) : list (string * chat_doc) :=
  take limit (start_after cursor (scan c)).

Definition commit (t : Z) (newId : string) {A} (r : request A) (st : store)
  : result A * store :=
  match r in request A return result A * store with
  | PresenceSet userId p =>
      (Ok tt,
       {| chatPresence :=
            <[userId := {| p_isOnline := p_isOnline p;
                           p_lastSeen := resolve t (p_lastSeen p);
                           p_socketId := p_socketId p;
                           p_userName := p_userName p;
                           p_userEmail := p_userEmail p;
                           p_avatar := p_avatar p |}]> (chatPresence st);
          chatMessages := chatMessages st |})
  | PresenceUpdate userId isOnline lastSeen =>
      match chatPresence st !! userId with
      | None => (Err, st)
      | Some p =>
          (Ok tt,
           {| chatPresence :=
                <[userId := {| p_isOnline := isOnline;
                               p_lastSeen := resolve t lastSeen;
                               p_socketId := p_socketId p;
                               p_userName := p_userName p;
                               p_userEmail := p_userEmail p;
                               p_avatar := p_avatar p |}]> (chatPresence st);
              chatMessages := chatMessages st |})
      end
  | MessagesAdd d =>
      match chatMessages st !! newId with
      | Some _ => (Err, st)
      | None =>
          (Ok newId,
           {| chatPresence := chatPresence st;
              chatMessages :=
                <[newId := {| d_data := with_timestamp
                                          (resolve t (m_timestamp (d_data d)))
                                          (d_data d);
                              d_createdAt := d_createdAt d |}]>
                  (chatMessages st) |})
      end
  | MessagesGet id => (Ok (chatMessages st !! id), st)
  | MessagesUpdateLikes id likes =>
      match chatMessages st !! id with
      | None => (Err, st)
      | Some d =>
          (Ok tt,
           {| chatPresence := chatPresence st;
              chatMessages :=
                <[id := {| d_data := with_likes likes (d_data d);
                           d_createdAt := d_createdAt d |}]>
                  (chatMessages st) |})
      end
  | MessagesQuery limit startAfter =>
      (Ok (run_query limit startAfter (chatMessages st)), st)
  end.

Definition store_call (e : env) (n : nat) {A} (r : request A) (st : store)
  : result A * store :=
  if fails e n then (Err, st) else commit (serverTime e n) (autoId e n) r st.

Definition answer (e : env) (n : nat) {A} (q : query A) : A :=
  match q in query A return A with
  | DateNow => clock e n
  | MathRandom => random e n
  end.

(** ** Running one handler to completion *)

Record world := {
  w_mem : mem;
  w_store : store;
  w_tick : nat
}.

(** What a run leaves behind: the effects performed and the store calls
    made, in order, each call with whether it resolved. *)
Inductive entry :=
  | Did (e : effect)
  | Called {A : Type} (r : request A) (ok : bool).

Definition is_ok {A} (r : result A) : bool :=
  match r with Ok _ => true | Err => false end.

Fixpoint exec (e : env) (p : prog) (w : world) : world * list entry :=
  match p with
  | Ret => (w, [])
  | Read k => exec e (k (w_mem w)) w
  | Write m k =>
      exec e k {| w_mem := m; w_store := w_store w; w_tick := w_tick w |}
  | Out x k => let '(w', t) := exec e k w in (w', Did x :: t)
  | Ask q k =>
      exec e (k (answer e (w_tick w) q))
        {| w_mem := w_mem w; w_store := w_store w; w_tick := S (w_tick w) |}
  | Await r k =>
      let '(res, st) := store_call e (w_tick w) r (w_store w) in
      let '(w', t) :=
        exec e (k res)
          {| w_mem := w_mem w; w_store := st; w_tick := S (w_tick w) |} in
      (w', Called r (is_ok res) :: t)
  end.

(** A sequence of events, each handled to completion before the next. *)
Fixpoint exec_all (e : env) (evs : list (string * event)) (w : world)
  : world * list entry :=
  match evs with
  | [] => (w, [])
  | (sid, ev) :: evs =>
      let '(w1, t1) := exec e (handler sid ev) w in
      let '(w2, t2) := exec_all e evs w1 in
      (w2, t1 ++ t2)
  end.

(** ** Interleaved handlers

    [sync] runs a handler to its next [await] (or to its end) without
    yielding: the synchronous block the event loop executes in one go. *)
Fixpoint sync (e : env) (p : prog) (m : mem) (n : nat)
  : mem * nat * list effect * prog :=
  match p with
  | Ret => (m, n, [], Ret)
  | Read k => sync e (k m) m n
  | Write m' k => sync e k m' n
  | Out x k => let '(m1, n1, o, r) := sync e k m n in (m1, n1, x :: o, r)
  | Ask q k => sync e (k (answer e n q)) m (S n)
  | Await r k => (m, n, [], Await r k)
  end.

(** A configuration: the tables and the handlers suspended at an [await].
    A step either starts the handler of an incoming event or resumes a
    suspended handler with some outcome of its call; the store is left
    unconstrained, so every answer it could give is covered. *)
Definition park (rest : prog) (pool : list prog) : list prog :=
  match rest with
  | Ret => pool
  | _ => rest :: pool
  end.

Inductive istep : mem * list prog -> mem * list prog -> Prop :=
  | istep_event e n sid ev m pool m' n' o rest :
      sync e (handler sid ev) m n = (m', n', o, rest) ->
      istep (m, pool) (m', park rest pool)
  | istep_resume e n A (r : request A) k (res : result A)
                 m pool1 pool2 m' n' o rest :
      sync e (k res) m n = (m', n', o, rest) ->
      istep (m, pool1 ++ Await r k :: pool2) (m', pool1 ++ park rest pool2).

Definition reachable (c : mem * list prog) : Prop :=
  rtc istep (mem_init, []) c.

(** ** Vocabulary of the table invariant *)

(** Every socket with an entry in [userRooms] has one in [activeUsers]. *)
Definition members_have_sessions (m : mem) : Prop :=
  ∀ sid, map_has sid (userRooms m) → map_has sid (activeUsers m).

(** The tables are [Map]s (a key occurs once) and satisfy the above. *)
Definition tables_ok (m : mem) : Prop :=
  NoDup (activeUsers m).*1 ∧ NoDup (userRooms m).*1 ∧
  members_have_sessions m.

(** [keeps p m]: started on tables [m], the handler [p] reaches its next
    [await], or its end, with sound tables, and so does each of its
    continuations when resumed on sound tables, whatever it is resumed
    with. *)
Fixpoint keeps (p : prog) (m : mem) : Prop :=
  match p with
  | Ret => tables_ok m
  | Read k => keeps (k m) m
  | Write m' k => keeps k m'
  | Out _ k => keeps k m
  | Ask q k => ∀ a, keeps (k a) m
  | Await r k => tables_ok m ∧ ∀ res m', tables_ok m' → keeps (k res) m'
  end.

(** A parked handler can be resumed safely. *)
Definition resumable (p : prog) : Prop :=
  match p with
  | Ret => True
  | Await r k => ∀ res m, tables_ok m → keeps (k res) m
  | _ => False
  end.

(** Documents are compared field by field. *)
#[global] Instance timeval_eq_dec : EqDecision timeval.
Proof. solve_decision. Defined.
#[global] Instance message_eq_dec : EqDecision message.
Proof. solve_decision. Defined.
#[global] Instance chat_doc_eq_dec : EqDecision chat_doc.
Proof. solve_decision. Defined.

(** ** Vocabulary of the history properties *)

(** [a] was created before [b]. *)
Definition older (a b : string * chat_doc) : Prop :=
  (d_createdAt a.2 < d_createdAt b.2)%Z.

#[global] Instance older_dec : RelDecision older.
Proof. intros a b. unfold older. apply _. Defined.


(** The documents a history request with this [limit] reads: the
    [limit * 2] most recently created ones. *)
Definition scan_window (limit : nat) (c : gmap string chat_doc)
  : list (string * chat_doc) :=
  take (limit * 2) (scan c).

(** A history request without cursor. *)
Definition first_page (room : string) (limit : nat) : history_data :=
  {| h_roomId := Some room; h_limit := Some limit; h_lastMessageId := None |}.


(** ** Sample data *)

Definition env_ok : env :=
  {| fails := fun _ => false;
     clock := fun n => (1000 + Z.of_nat n)%Z;
     random := fun _ => "k3x9q2";
     autoId := fun n => "doc" +:+ pretty n;
     serverTime := fun n => (2000 + Z.of_nat n)%Z |}.

(** An environment whose store rejects every call. *)
Definition env_down : env :=
  {| fails := fun _ => true;
     clock := clock env_ok;
     random := random env_ok;
     autoId := autoId env_ok;
     serverTime := serverTime env_ok |}.

Definition world_init : world :=
  {| w_mem := mem_init; w_store := store_init; w_tick := 0 |}.

Definition alice : join_data :=
  {| j_userId := "u-alice"; j_userName := "Alice";
     j_userEmail := Some "alice@example.org"; j_avatar := None |}.

Definition hello : send_data :=
  {| sd_content := "hello"; sd_type := None; sd_roomId := None |}.

(** Alice has joined on socket [s1]. *)
Definition world_alice : world := (exec env_ok (user_join "s1" alice) world_init).1.

(** Alice has sent "hello": the log holds it as document [doc5]. *)
Definition world_hello : world :=
  (exec env_ok (message_send "s1" hello) world_alice).1.

Definition like_hello : like_data :=
  {| l_messageId := "doc5"; l_action := "like" |}.

Definition hello_doc : chat_doc :=
  {| d_data := with_timestamp (Date 2005)
                 (new_message (new_session "s1" alice 1000) hello 1002 "k3x9q2");
     d_createdAt := 1004 |}.




(** The same shape with the three public messages created last. *)
Definition log_entry_recent (i : nat) : string * chat_doc :=
  ("m" +:+ pretty i,
   {| d_data :=
        {| m_id := "msg_" +:+ pretty i +:+ "_k3x9q2";
           m_content := "text";
           m_type := "text";
           m_userId := "u-alice";
           m_userName := "Alice";
           m_userEmail := None;
           m_avatar := None;
           m_timestamp := Date (Z.of_nat i);
           m_roomId := if decide (197 ≤ i)%nat then public_hub else "lounge";
           m_likes := [];
           m_replies := [] |};
      d_createdAt := Z.of_nat i |}).

Definition log_200_recent : gmap string chat_doc :=
  list_to_map (log_entry_recent <$> seq 0 200).

Definition world_200_recent : world :=
  {| w_mem := mem_init;
     w_store := {| chatPresence := ∅; chatMessages := log_200_recent |};
     w_tick := 0 |}.

(** A history request whose cursor names no document of the log. *)
Definition page_after_missing : history_data :=
  {| h_roomId := None; h_limit := None; h_lastMessageId := Some "nope" |}.

(** ** The HTTP endpoint on the registry *)

(** An element of the [users] array of [GET /api/chat/users]: the session
    without its [socketId]. *)
Record user_info := {
  u_userId : string;
  u_userName : string;
  u_userEmail : option string;
  u_avatar : option string;
  u_joinedAt : Z
}.

Record users_response := {
  r_users : list user_info;
  r_count : nat
}.

(** [GET /api/chat/users] *)
Definition api_chat_users (m : mem) : users_response :=
  let users :=
    (fun user => {| u_userId := s_userId user;
                    u_userName := s_userName user;
                    u_userEmail := s_userEmail user;
                    u_avatar := s_avatar user;
                    u_joinedAt := s_joinedAt user |})
      <$> map_values (activeUsers m) in
  {| r_users := users; r_count := length users |}.

(** ** Vocabulary of the run properties *)

(** The Socket.IO events of a run, with their recipients, in order. *)
Definition emissions (t : list entry) : list (target * payload) :=
  omap (fun en => match en with
                  | Did (Emit to p) => Some (to, p)
                  | _ => None
                  end) t.

(** Every store call of the run resolved. *)
Definition all_resolved (t : list entry) : bool :=
  forallb (fun en => match en with
                     | Called _ ok => ok
                     | Did _ => true
                     end) t.

(** The cursor a history request ends up with: the snapshot of the
    document named by a non-empty [lastMessageId], when it exists. *)
Definition history_cursor (data : history_data) (c : gmap string chat_doc)
  : option (string * chat_doc) :=
  match h_lastMessageId data with
  | Some id => if decide (id = "") then None else (fun d => (id, d)) <$> c !! id
  | None => None
  end.

(** A handler that neither reads nor writes the tables. *)
Fixpoint tableless (p : prog) : Prop :=
  match p with
  | Ret => True
  | Read _ => False
  | Write _ _ => False
  | Out _ k => tableless k
  | Ask q k => ∀ a, tableless (k a)
  | Await r k => ∀ res, tableless (k res)
  end.

(** The two tables mirror each other: they hold the same sockets in the
    same order, each once; every membership is the public room alone;
    every session records the socket it is stored under. *)
Definition tables_exact (m : mem) : Prop :=
  NoDup (activeUsers m).*1
  ∧ (userRooms m).*1 = (activeUsers m).*1
  ∧ (∀ sid rooms, (sid, rooms) ∈ userRooms m → rooms = [public_hub])
  ∧ (∀ sid s, (sid, s) ∈ activeUsers m → s_socketId s = sid).

(** [keeps] for an arbitrary property of the tables. *)
Fixpoint keeps_inv (I : mem → Prop) (p : prog) (m : mem) : Prop :=
  match p with
  | Ret => I m
  | Read k => keeps_inv I (k m) m
  | Write m' k => keeps_inv I k m'
  | Out _ k => keeps_inv I k m
  | Ask q k => ∀ a, keeps_inv I (k a) m
  | Await r k => I m ∧ ∀ res m', I m' → keeps_inv I (k res) m'
  end.

Definition resumable_inv (I : mem → Prop) (p : prog) : Prop :=
  match p with
  | Ret => True
  | Await r k => ∀ res m, I m → keeps_inv I (k res) m
  | _ => False
  end.

(** ** A scheduler for the interleaved handlers

    The event loop as a machine: the tables, the store, the handlers
    parked at an [await], and the run so far.  A move delivers an event,
    which runs its handler to its first [await], or resumes a parked
    handler: its store call takes effect, and the handler runs on to its
    next [await] or to its end. *)
Record system := {
  sy_mem : mem;
  sy_store : store;
  sy_tick : nat;
  sy_pool : list prog;
  sy_trace : list entry
}.

Inductive move :=
  | Deliver (sid : string) (ev : event)
  | Resume (i : nat).

Definition deliver (e : env) (sid : string) (ev : event) (s : system)
  : system :=
  let '(m, n, o, rest) := sync e (handler sid ev) (sy_mem s) (sy_tick s) in
  {| sy_mem := m;
     sy_store := sy_store s;
     sy_tick := n;
     sy_pool := park rest (sy_pool s);
     sy_trace := sy_trace s ++ (Did <$> o) |}.

Definition resume (e : env) (i : nat) (s : system) : system :=
  match sy_pool s !! i with
  | Some (Await r k) =>
      let '(res, st) := store_call e (sy_tick s) r (sy_store s) in
      let '(m, n, o, rest) := sync e (k res) (sy_mem s) (S (sy_tick s)) in
      {| sy_mem := m;
         sy_store := st;
         sy_tick := n;
         sy_pool := take i (sy_pool s) ++ park rest (drop (S i) (sy_pool s));
         sy_trace := sy_trace s ++ Called r (is_ok res) :: (Did <$> o) |}
  | _ => s
  end.

Definition step (e : env) (s : system) (mv : move) : system :=
  match mv with
  | Deliver sid ev => deliver e sid ev s
  | Resume i => resume e i s
  end.

Definition run_schedule (e : env) (mvs : list move) (s : system) : system :=
  foldl (step e) s mvs.

(** Two like events are delivered before either is resumed; the reads
    are answered, then the writes. *)
Definition racing_likes (sid1 sid2 messageId : string) : list move :=
  let like := MessageLike {| l_messageId := messageId; l_action := "like" |} in
  [Deliver sid1 like; Deliver sid2 like;
   Resume 1; Resume 0; Resume 1; Resume 0].

(** ** More sample data *)

Definition bob : join_data :=
  {| j_userId := "u-bob"; j_userName := "Bob";
     j_userEmail := None; j_avatar := Some "bob.png" |}.

Definition typing_here : typing_data := {| t_roomId := None |}.

Definition unlike_hello : like_data :=
  {| l_messageId := "doc5"; l_action := "unlike" |}.

(** Alice has liked her message. *)
Definition world_liked : world :=
  (exec env_ok (message_like "s1" like_hello) world_hello).1.

(** The page that follows document [m199] in the public room. *)
Definition page_before_199 : history_data :=
  {| h_roomId := None; h_limit := None; h_lastMessageId := Some "m199" |}.

(** Alice is connected from two devices: sockets [s1] and [s2]. *)
Definition world_two_devices : world :=
  (exec env_ok (user_join "s2" alice) world_alice).1.

(** Alice and Bob have joined, and Alice has sent "hello", stored as
    document [doc7]. *)
Definition world_pair : world :=
  (exec_all env_ok [("s1", UserJoin alice); ("s2", UserJoin bob);
                    ("s1", MessageSend hello)] world_init).1.

Definition system_pair : system :=
  {| sy_mem := w_mem world_pair; sy_store := w_store world_pair;
     sy_tick := w_tick world_pair; sy_pool := []; sy_trace := [] |}.

Definition pair_doc : chat_doc :=
  {| d_data := with_timestamp (Date 2007)
                 (new_message (new_session "s1" alice 1000) hello 1004 "k3x9q2");
     d_createdAt := 1006 |}.

(** Every message of the log has a duplicate-free [likes] array. *)
Definition likes_nodup (st : store) : Prop :=
  ∀ id doc, chatMessages st !! id = Some doc → NoDup (m_likes (d_data doc)).







(** Case analysis on the membership of an entry in an explicit run. *)
Ltac scan_run H :=
  repeat (apply elem_of_cons in H as [H|H]; [try discriminate H|]);
  try (by apply elem_of_nil in H).

(** ** The tables *)

Section JsMapFacts.
Context {V : Type}.
Implicit Types (m : list (string * V)) (k : string) (v : V).

Lemma map_get_set_eq m k v : map_get k (map_set k v m) = Some v.
Proof.
  induction m as [|[k' v'] m IH]; simpl.
  - by rewrite decide_True.
  - destruct (decide (k' = k)) as [->|Hne]; simpl.
    + by rewrite decide_True.
    + by rewrite decide_False.
Qed.

Lemma map_get_set_ne m k k' v :
  k ≠ k' → map_get k' (map_set k v m) = map_get k' m.
Proof.
  intros Hne. induction m as [|[k1 v1] m IH]; simpl.
  - by rewrite decide_False.
  - destruct (decide (k1 = k)) as [->|Hne1]; simpl.
    + by rewrite !decide_False.
    + destruct (decide (k1 = k')); [done | apply IH].
Qed.

Lemma map_get_delete_ne m k k' :
  k ≠ k' → map_get k' (map_delete k m) = map_get k' m.
Proof.
  intros Hne. induction m as [|[k1 v1] m IH]; simpl; [done|].
  destruct (decide (k1 = k)) as [->|Hne1]; simpl.
  - by rewrite decide_False.
  - destruct (decide (k1 = k')); [done | apply IH].
Qed.

Lemma map_has_set m k k' v :
  map_has k' (map_set k v m) ↔ k' = k ∨ map_has k' m.
Proof.
  unfold map_has. destruct (decide (k = k')) as [->|Hne].
  - rewrite map_get_set_eq. split; eauto.
  - rewrite map_get_set_ne by done. split; [eauto|].
    intros [->|?]; [done | auto].
Qed.

Lemma map_has_delete m k k' :
  map_has k' (map_delete k m) → map_has k' m.
Proof.
  unfold map_has. induction m as [|[k1 v1] m IH]; simpl; [done|].
  destruct (decide (k1 = k)) as [->|Hne1]; simpl.
  - destruct (decide (k = k')); eauto.
  - destruct (decide (k1 = k')); eauto.
Qed.
End JsMapFacts.

(** ** message:send *)

(** [C6] A message:send on a connection without a session answers the
    sender alone with the "User not authenticated" error: the run makes no
    store call, broadcasts nothing, and leaves the tables, the store and
    the request counter as they were. *)
Theorem send_unauthenticated e sid messageData w :
  map_get sid (activeUsers (w_mem w)) = None →
  exec e (message_send sid messageData) w
  = (w, [Did (Emit (ToSocket sid) (Error "User not authenticated"))]).
Proof.
  intros Hno. unfold message_send. simpl. rewrite Hno. simpl.
  by destruct w.
Qed.

Lemma send_unauthenticated_witness :
  map_get "s2" (activeUsers (w_mem world_alice)) = None ∧
  exec env_ok (message_send "s2" hello) world_alice
  = (world_alice,
     [Did (Emit (ToSocket "s2") (Error "User not authenticated"))]).
Proof.
  split; [reflexivity|].
  apply (send_unauthenticated env_ok "s2" hello world_alice). reflexivity.
Defined.

(** [C1] A message:send on an authenticated connection makes exactly one
    store call, the write of the message.  When the write resolves, the
    document is in the log and the message:new broadcast to the room
    follows the write in the run; when the write is rejected, the log is
    unchanged and the only event emitted is the error sent to the sender:
    no message:new is broadcast. *)
Theorem send_broadcast_after_persist e sid messageData w user w' t :
  map_get sid (activeUsers (w_mem w)) = Some user →
  exec e (message_send sid messageData) w = (w', t) →
  let n := w_tick w in
  let message := new_message user messageData (clock e n) (random e (S n)) in
  let doc := {| d_data := with_timestamp ServerTimestamp message;
                d_createdAt := clock e (S (S n)) |} in
  (∃ firebaseId,
      chatMessages (w_store w) !! firebaseId = None ∧
      chatMessages (w_store w') !! firebaseId
      = Some {| d_data :=
                  with_timestamp (Date (serverTime e (S (S (S n))))) message;
                d_createdAt := clock e (S (S n)) |} ∧
      t = [Called (MessagesAdd doc) true;
           Did (Emit (ToRoom (m_roomId message))
                  (MessageNew
                     (with_timestamp (Date (clock e (S (S (S (S n)))))) message)
                     firebaseId));
           Did (Console (LogSent (s_userName user) (m_roomId message)))])
  ∨ (w_store w' = w_store w ∧
     t = [Called (MessagesAdd doc) false;
          Did (Console ErrSend);
          Did (Emit (ToSocket sid) (Error "Failed to send message"))]).
Proof.
  intros Huser Hrun. unfold message_send in Hrun. simpl in Hrun.
  rewrite Huser in Hrun. simpl in Hrun. unfold store_call in Hrun.
  destruct (fails e _); simpl in Hrun.
  { right. by simplify_eq. }
  destruct (chatMessages (w_store w) !! autoId e _) eqn:Hfresh;
    simpl in Hrun; simplify_eq.
  { by right. }
  left. eexists. split; [exact Hfresh|]. simpl.
  split; [by rewrite lookup_insert_eq | done].
Qed.

Lemma send_broadcast_after_persist_witness :
  let run := exec env_ok (message_send "s1" hello) world_alice in
  let message :=
    new_message (new_session "s1" alice 1000) hello 1002 "k3x9q2" in
  let doc := {| d_data := with_timestamp ServerTimestamp message;
                d_createdAt := 1004 |} in
  map_get "s1" (activeUsers (w_mem world_alice))
  = Some (new_session "s1" alice 1000) ∧
  ((∃ firebaseId,
      chatMessages (w_store world_alice) !! firebaseId = None ∧
      chatMessages (w_store run.1) !! firebaseId
      = Some {| d_data := with_timestamp (Date 2005) message;
                d_createdAt := 1004 |} ∧
      run.2 = [Called (MessagesAdd doc) true;
               Did (Emit (ToRoom "public-hub")
                      (MessageNew (with_timestamp (Date 1006) message)
                         firebaseId));
               Did (Console (LogSent "Alice" "public-hub"))])
   ∨ (w_store run.1 = w_store world_alice ∧
      run.2 = [Called (MessagesAdd doc) false;
               Did (Console ErrSend);
               Did (Emit (ToSocket "s1") (Error "Failed to send message"))])).
Proof.
  split; [reflexivity|].
  apply (send_broadcast_after_persist env_ok "s1" hello world_alice
           (new_session "s1" alice 1000)); reflexivity.
Defined.

(** ** user:join and disconnect *)

Lemma exec_for_each e rooms f k w :
  exec e (for_each rooms f k) w
  = ((exec e k w).1, (Did ∘ f <$> rooms) ++ (exec e k w).2).
Proof.
  induction rooms as [|r rooms IH]; simpl.
  - by destruct (exec e k w).
  - rewrite IH. done.
Qed.

(** [C10] When the presence write of a user:join is rejected, the run
    consists of the room join, the rejected write, the console line and
    the "Failed to join chat" error sent to the joining client: neither
    user:joined nor users:list is emitted.  The session and the room
    membership inserted before the write stay in the tables. *)
Theorem join_failure_keeps_session e sid userData w w' t :
  fails e (S (w_tick w)) = true →
  exec e (user_join sid userData) w = (w', t) →
  t = [Did (SocketJoin sid public_hub);
       Called (PresenceSet (j_userId userData) (online_record sid userData))
         false;
       Did (Console ErrJoin);
       Did (Emit (ToSocket sid) (Error "Failed to join chat"))] ∧
  map_get sid (activeUsers (w_mem w'))
  = Some (new_session sid userData (clock e (w_tick w))) ∧
  map_get sid (userRooms (w_mem w')) = Some [public_hub] ∧
  w_store w' = w_store w.
Proof.
  intros Hfail Hrun. unfold user_join in Hrun. simpl in Hrun.
  unfold store_call in Hrun. rewrite Hfail in Hrun. simpl in Hrun.
  simplify_eq. simpl. by rewrite !map_get_set_eq.
Qed.

Lemma join_failure_keeps_session_witness :
  let run := exec env_down (user_join "s1" alice) world_init in
  fails env_down (S (w_tick world_init)) = true ∧
  run.2 = [Did (SocketJoin "s1" public_hub);
           Called (PresenceSet "u-alice" (online_record "s1" alice)) false;
           Did (Console ErrJoin);
           Did (Emit (ToSocket "s1") (Error "Failed to join chat"))] ∧
  map_get "s1" (activeUsers (w_mem run.1))
  = Some (new_session "s1" alice 1000) ∧
  map_get "s1" (userRooms (w_mem run.1)) = Some [public_hub] ∧
  w_store run.1 = w_store world_init.
Proof.
  split; [reflexivity|].
  apply (join_failure_keeps_session env_down "s1" alice world_init);
    reflexivity.
Defined.

(** [C2] (as stated, refuted) With a store that rejects the presence
    write, user:join emits no user:joined and disconnect emits no
    user:left: the runs end in the [catch] block. *)
Lemma presence_failure_blocks_notice :
  let joining := (exec env_down (user_join "s1" alice) world_init).2 in
  let leaving := (exec env_down (disconnect "s1") world_alice).2 in
  joining = [Did (SocketJoin "s1" public_hub);
             Called (PresenceSet "u-alice" (online_record "s1" alice)) false;
             Did (Console ErrJoin);
             Did (Emit (ToSocket "s1") (Error "Failed to join chat"))] ∧
  (Did (Emit (ToRoomExcept public_hub "s1") (joined_notice alice)) ∉ joining) ∧
  leaving = [Called (PresenceUpdate "u-alice" false ServerTimestamp) false;
             Did (Console ErrDisconnect)] ∧
  (Did (Emit (ToRoomExcept public_hub "s1")
          (left_notice (new_session "s1" alice 1000))) ∉ leaving).
Proof.
  simpl. repeat split.
  - intros Hin. repeat (apply elem_of_cons in Hin as [Hin|Hin]; [discriminate Hin|]).
    by apply elem_of_nil in Hin.
  - intros Hin. repeat (apply elem_of_cons in Hin as [Hin|Hin]; [discriminate Hin|]).
    by apply elem_of_nil in Hin.
Qed.

(** [C2] (amended) The room notification of user:join and of disconnect
    is emitted exactly when the presence write resolves.  A rejected
    write is logged on the console and ends the handler before the
    notification: user:join then only sends the error to the joining
    client, and disconnect emits nothing. *)
Theorem presence_failure_aborts_notification e sid w w' t :
  (∀ userData,
     exec e (user_join sid userData) w = (w', t) →
     let r := PresenceSet (j_userId userData) (online_record sid userData) in
     let ok := is_ok (store_call e (S (w_tick w)) r (w_store w)).1 in
     (ok = true →
      Did (Emit (ToRoomExcept public_hub sid) (joined_notice userData)) ∈ t)
     ∧ (ok = false →
        t = [Did (SocketJoin sid public_hub);
             Called r false;
             Did (Console ErrJoin);
             Did (Emit (ToSocket sid) (Error "Failed to join chat"))]))
  ∧ (∀ user,
       map_get sid (activeUsers (w_mem w)) = Some user →
       exec e (disconnect sid) w = (w', t) →
       let r := PresenceUpdate (s_userId user) false ServerTimestamp in
       let ok := is_ok (store_call e (w_tick w) r (w_store w)).1 in
       (ok = true →
        ∀ room,
          room ∈ or_default (map_get sid (userRooms (w_mem w))) [] →
          Did (Emit (ToRoomExcept room sid) (left_notice user)) ∈ t)
       ∧ (ok = false → t = [Called r false; Did (Console ErrDisconnect)])).
Proof.
  split.
  - intros userData Hrun r ok. unfold user_join in Hrun. simpl in Hrun.
    subst ok r. destruct (store_call e _ _ _) as [[[]|] st]; simpl in *;
      simplify_eq; split; try done.
    intros _. set_solver.
  - intros user Huser Hrun r ok. unfold disconnect in Hrun. simpl in Hrun.
    rewrite Huser in Hrun. simpl in Hrun. subst ok r.
    destruct (store_call e _ _ _) as [[[]|] st]; simpl in *.
    + rewrite exec_for_each in Hrun. simpl in Hrun. simplify_eq.
      split; [|done]. intros _ room Hroom. apply elem_of_cons. right.
      apply elem_of_app. left. apply list_elem_of_fmap. by exists room.
    + by simplify_eq.
Qed.

Lemma presence_failure_aborts_notification_witness :
  let run := exec env_ok (disconnect "s1") world_alice in
  let r := PresenceUpdate "u-alice" false ServerTimestamp in
  map_get "s1" (activeUsers (w_mem world_alice))
  = Some (new_session "s1" alice 1000) ∧
  is_ok (store_call env_ok (w_tick world_alice) r (w_store world_alice)).1
  = true ∧
  ∀ room,
    room ∈ or_default (map_get "s1" (userRooms (w_mem world_alice))) [] →
    Did (Emit (ToRoomExcept room "s1")
           (left_notice (new_session "s1" alice 1000))) ∈ run.2.
Proof.
  intros run r. split; [reflexivity|]. split; [reflexivity|].
  apply (proj1 (proj2 (presence_failure_aborts_notification
                         env_ok "s1" world_alice run.1 run.2)
                  (new_session "s1" alice 1000) eq_refl eq_refl)).
  reflexivity.
Defined.

(** ** message:like *)

Lemma includes_true l x : includes l x = true ↔ x ∈ l.
Proof. unfold includes. apply bool_decide_eq_true. Qed.

Lemma react_like_fresh u l : u ∉ l → react "like" u l = l ++ [u].
Proof.
  intros Hnotin. unfold react. simpl.
  destruct (includes l u) eqn:Hinc; [|done].
  by apply includes_true in Hinc.
Qed.

Lemma react_like_present u l : u ∈ l → react "like" u l = l.
Proof.
  intros Hin. unfold react. apply includes_true in Hin. by rewrite Hin.
Qed.

Lemma react_like_elem u l : u ∈ react "like" u l.
Proof.
  destruct (decide (u ∈ l)) as [Hin|Hnotin].
  - by rewrite react_like_present.
  - rewrite react_like_fresh by done. set_solver.
Qed.

Lemma react_like_idemp u l : react "like" u (react "like" u l) = react "like" u l.
Proof. apply react_like_present, react_like_elem. Qed.

Lemma react_NoDup action u l : NoDup l → NoDup (react action u l).
Proof.
  intros Hl. unfold react.
  destruct (bool_decide (action = "like") && negb (includes l u)) eqn:Hpush.
  - apply andb_true_iff in Hpush as [_ Hnew].
    apply negb_true_iff in Hnew.
    apply NoDup_app. split_and!; [done | | apply NoDup_singleton].
    intros x Hx ->%list_elem_of_singleton.
    apply includes_true in Hx. congruence.
  - destruct (bool_decide (action = "unlike")); [|done].
    by apply NoDup_filter.
Qed.

Lemma with_likes_twice l (m : message) :
  with_likes l (with_likes l m) = with_likes l m.
Proof. reflexivity. Qed.

(** [C8] A message:like on a message whose persisted [likes] array has no
    duplicates, whatever the action and the user, leaves the persisted
    array duplicate-free, and every message:liked it broadcasts carries a
    duplicate-free array. *)
Theorem like_preserves_nodup e sid data w w' t :
  (∀ doc, chatMessages (w_store w) !! l_messageId data = Some doc →
          NoDup (m_likes (d_data doc))) →
  exec e (message_like sid data) w = (w', t) →
  (∀ doc, chatMessages (w_store w') !! l_messageId data = Some doc →
          NoDup (m_likes (d_data doc)))
  ∧ (∀ to messageId likes userId action,
       Did (Emit to (MessageLiked messageId likes userId action)) ∈ t →
       NoDup likes).
Proof.
  intros Hnodup Hrun.
  assert (∀ to messageId likes userId action,
            Did (Emit to (MessageLiked messageId likes userId action))
            ∈ @nil entry → NoDup likes) as Hnil by (intros; scan_run H).
  assert (∀ to messageId likes userId action A (r : request A),
            Did (Emit to (MessageLiked messageId likes userId action))
            ∈ [Called r false; Did (Console ErrLike)] → NoDup likes)
    as Hget by (intros; scan_run H).
  unfold message_like in Hrun. simpl in Hrun.
  destruct (map_get sid (activeUsers (w_mem w))) as [user|];
    simpl in Hrun; [|by simplify_eq].
  unfold store_call at 1 in Hrun.
  destruct (fails e (w_tick w)); simpl in Hrun; [simplify_eq; eauto|].
  destruct (chatMessages (w_store w) !! l_messageId data) as [doc|] eqn:Hdoc;
    simpl in Hrun.
  2:{ simplify_eq. simpl. split; [by rewrite Hdoc|].
      intros ????? Hin. scan_run Hin. }
  specialize (Hnodup doc eq_refl).
  unfold store_call in Hrun.
  destruct (fails e (S (w_tick w))); simpl in Hrun.
  { simplify_eq. simpl. split.
    - intros doc' Hdoc'. by simplify_eq.
    - intros ????? Hin. scan_run Hin. }
  rewrite Hdoc in Hrun. simpl in Hrun. simplify_eq. simpl. split.
  - intros doc' Hdoc'. rewrite lookup_insert_eq in Hdoc'. simplify_eq.
    simpl. by apply react_NoDup.
  - intros to messageId likes userId action Hin. scan_run Hin.
    injection Hin as _ _ -> _ _. by apply react_NoDup.
Qed.

Lemma like_preserves_nodup_witness :
  let run := exec env_ok (message_like "s1" like_hello) world_hello in
  (∀ doc, chatMessages (w_store world_hello) !! "doc5" = Some doc →
          NoDup (m_likes (d_data doc))) ∧
  (∀ doc, chatMessages (w_store run.1) !! "doc5" = Some doc →
          NoDup (m_likes (d_data doc))) ∧
  (∀ to messageId likes userId action,
     Did (Emit to (MessageLiked messageId likes userId action)) ∈ run.2 →
     NoDup likes).
Proof.
  intros run.
  assert (∀ doc, chatMessages (w_store world_hello) !! "doc5" = Some doc →
                 NoDup (m_likes (d_data doc))) as Hpre.
  { intros doc Hdoc. vm_compute in Hdoc. injection Hdoc as <-.
    apply NoDup_nil_2. }
  split; [exact Hpre|].
  apply (like_preserves_nodup env_ok "s1" like_hello world_hello run.1 run.2
           Hpre eq_refl).
Defined.

(** [C5] On an authenticated connection and an existing message, once a
    'like' has gone through (its read and its write resolved), a second
    'like' by the same connection changes nothing: whatever the store
    answers the second time, the persisted documents are those left by
    the first, every message:liked the second run broadcasts carries the
    [likes] array of the first, and when its calls resolve the second run
    repeats the first one entry for entry. *)
Theorem like_twice_same_as_once e sid messageId w user doc w1 t1 w2 t2 :
  let data := {| l_messageId := messageId; l_action := "like" |} in
  let likes := react "like" (s_userId user) (m_likes (d_data doc)) in
  let room := str_or (Some (m_roomId (d_data doc))) public_hub in
  let liked := MessageLiked messageId likes (s_userId user) "like" in
  map_get sid (activeUsers (w_mem w)) = Some user →
  chatMessages (w_store w) !! messageId = Some doc →
  fails e (w_tick w) = false →
  fails e (S (w_tick w)) = false →
  exec e (message_like sid data) w = (w1, t1) →
  exec e (message_like sid data) w1 = (w2, t2) →
  t1 = [Called (MessagesGet messageId) true;
        Called (MessagesUpdateLikes messageId likes) true;
        Did (Emit (ToRoom room) liked)] ∧
  chatMessages (w_store w1) !! messageId
  = Some {| d_data := with_likes likes (d_data doc);
            d_createdAt := d_createdAt doc |} ∧
  w_store w2 = w_store w1 ∧
  (∀ to mid likes' u a,
     Did (Emit to (MessageLiked mid likes' u a)) ∈ t2 → likes' = likes) ∧
  (fails e (S (S (w_tick w))) = false →
   fails e (S (S (S (w_tick w)))) = false →
   t2 = t1).
Proof.
  intros data likes room liked Huser Hdoc Hget Hput Hrun1 Hrun2.
  unfold message_like in Hrun1. simpl in Hrun1.
  rewrite Huser in Hrun1. simpl in Hrun1.
  unfold store_call in Hrun1. rewrite Hget in Hrun1. simpl in Hrun1.
  rewrite Hdoc in Hrun1. simpl in Hrun1.
  unfold store_call in Hrun1. rewrite Hput in Hrun1.
  simpl in Hrun1. rewrite Hdoc in Hrun1. simpl in Hrun1.
  injection Hrun1 as <- <-.
  split; [done|]. simpl. split; [by rewrite lookup_insert_eq|].
  unfold message_like in Hrun2. simpl in Hrun2.
  rewrite Huser in Hrun2. simpl in Hrun2.
  unfold store_call in Hrun2.
  destruct (fails e (S (S (w_tick w)))); simpl in Hrun2.
  { injection Hrun2 as <- <-. split; [done|]. split; [|done].
    intros ????? Hin. scan_run Hin. }
  rewrite lookup_insert_eq in Hrun2. simpl in Hrun2.
  rewrite react_like_idemp in Hrun2. unfold store_call in Hrun2.
  destruct (fails e (S (S (S (w_tick w))))); simpl in Hrun2.
  { injection Hrun2 as <- <-. split; [done|]. split; [|done].
    intros ????? Hin. scan_run Hin. }
  rewrite lookup_insert_eq in Hrun2. simpl in Hrun2.
  injection Hrun2 as <- <-. simpl. split.
  { f_equal. by rewrite insert_insert_eq. }
  split; [|done].
  intros to mid likes' u a Hin. scan_run Hin.
  injection Hin as _ _ Hlikes _ _. by subst likes.
Qed.

Lemma like_twice_same_as_once_witness :
  let once := exec env_ok (message_like "s1" like_hello) world_hello in
  let twice := exec env_ok (message_like "s1" like_hello) once.1 in
  map_get "s1" (activeUsers (w_mem world_hello))
  = Some (new_session "s1" alice 1000) ∧
  chatMessages (w_store world_hello) !! "doc5" = Some hello_doc ∧
  once.2 = [Called (MessagesGet "doc5") true;
            Called (MessagesUpdateLikes "doc5" ["u-alice"]) true;
            Did (Emit (ToRoom "public-hub")
                   (MessageLiked "doc5" ["u-alice"] "u-alice" "like"))] ∧
  chatMessages (w_store once.1) !! "doc5"
  = Some {| d_data := with_likes ["u-alice"] (d_data hello_doc);
            d_createdAt := 1004 |} ∧
  w_store twice.1 = w_store once.1 ∧
  (∀ to mid likes' u a,
     Did (Emit to (MessageLiked mid likes' u a)) ∈ twice.2 →
     likes' = ["u-alice"]) ∧
  (fails env_ok 9 = false → fails env_ok 10 = false → twice.2 = once.2).
Proof.
  intros once twice.
  split; [reflexivity|]. split; [vm_compute; reflexivity|].
  apply (like_twice_same_as_once env_ok "s1" "doc5" world_hello
           (new_session "s1" alice 1000) hello_doc once.1 once.2
           twice.1 twice.2);
    vm_compute; reflexivity.
Defined.

(** ** The scan order *)

Lemma ascii_compare_lt_trans a b c :
  Ascii.compare a b = Lt → Ascii.compare b c = Lt → Ascii.compare a c = Lt.
Proof.
  unfold Ascii.compare. rewrite !N.compare_lt_iff. lia.
Qed.

Lemma ascii_compare_refl a : Ascii.compare a a = Eq.
Proof. unfold Ascii.compare. apply N.compare_refl. Qed.

Lemma string_compare_lt_trans s1 s2 s3 :
  String.compare s1 s2 = Lt → String.compare s2 s3 = Lt →
  String.compare s1 s3 = Lt.
Proof.
  revert s2 s3. induction s1 as [|a s1 IH]; intros [|b s2] [|c s3];
    simpl; try done.
  destruct (Ascii.compare a b) eqn:Hab; try done;
    destruct (Ascii.compare b c) eqn:Hbc; try done; intros H12 H23.
  - apply Ascii.compare_eq_iff in Hab as ->.
    apply Ascii.compare_eq_iff in Hbc as ->.
    rewrite ascii_compare_refl. eauto.
  - apply Ascii.compare_eq_iff in Hab as ->. by rewrite Hbc.
  - apply Ascii.compare_eq_iff in Hbc as ->. by rewrite Hab.
  - by rewrite (ascii_compare_lt_trans a b c).
Qed.

Lemma string_leb_trans s1 s2 s3 :
  String.leb s1 s2 = true → String.leb s2 s3 = true → String.leb s1 s3 = true.
Proof.
  unfold String.leb.
  destruct (String.compare s1 s2) eqn:H12; try done;
    destruct (String.compare s2 s3) eqn:H23; try done; intros _ _.
  - apply String.compare_eq_iff in H12 as ->. by rewrite H23.
  - apply String.compare_eq_iff in H12 as ->. by rewrite H23.
  - apply String.compare_eq_iff in H23 as ->. by rewrite H12.
  - by rewrite (string_compare_lt_trans s1 s2 s3).
Qed.

#[global] Instance scan_order_total : Total scan_order.
Proof.
  intros a b. unfold scan_order, newer_first.
  destruct (String.leb_total a.1 b.1) as [Hle|Hle]; rewrite Hle;
    destruct (Z.ltb_spec (d_createdAt b.2) (d_createdAt a.2));
    destruct (Z.ltb_spec (d_createdAt a.2) (d_createdAt b.2));
    destruct (Z.eqb_spec (d_createdAt a.2) (d_createdAt b.2));
    destruct (Z.eqb_spec (d_createdAt b.2) (d_createdAt a.2));
    simpl; auto; lia.
Qed.

#[global] Instance scan_order_trans : Transitive scan_order.
Proof.
  intros a b c. unfold scan_order, newer_first.
  rewrite !orb_true_iff, !andb_true_iff, !Z.ltb_lt, !Z.eqb_eq.
  intros [?|[? Hab]] [?|[? Hbc]]; try (left; lia).
  right. split; [lia|]. by apply (string_leb_trans _ b.1).
Qed.



Lemma StronglySorted_sublist {A} (R : relation A) l1 l2 :
  l1 `sublist_of` l2 → StronglySorted R l2 → StronglySorted R l1.
Proof.
  induction 1 as [|x l1 l2 Hsub IH|x l1 l2 Hsub IH]; intros Hs.
  - done.
  - apply StronglySorted_cons in Hs as [Hx Hs].
    apply StronglySorted_cons. split; [|auto].
    eapply Forall_forall. intros y Hy.
    eapply Forall_forall in Hx; [exact Hx|].
    by eapply elem_of_sublist.
  - apply StronglySorted_cons in Hs as [_ Hs]. auto.
Qed.



Lemma scan_sorted c : StronglySorted scan_order (scan c).
Proof. apply StronglySorted_merge_sort; apply _. Qed.

Lemma elem_of_scan c x : x ∈ scan c ↔ c !! x.1 = Some x.2.
Proof.
  unfold scan. rewrite merge_sort_Permutation.
  destruct x as [i d]. apply elem_of_map_to_list.
Qed.




(** The run of a cursor-less history request whose query resolves. *)
Lemma history_first_page_run e sid room limit w :
  fails e (w_tick w) = false →
  exec e (messages_history sid (first_page room limit)) w
  = ({| w_mem := w_mem w; w_store := w_store w; w_tick := S (w_tick w) |},
     let page := reverse (take limit
                   (room_messages room
                      (scan_window limit (chatMessages (w_store w))))) in
     [Called (MessagesQuery (limit * 2) None) true;
      Did (Emit (ToSocket sid) (MessagesHistory page));
      Did (Console (LogHistory (length page) room))]).
Proof.
  intros Hok. unfold messages_history, first_page. simpl.
  unfold store_call. rewrite Hok. simpl. by destruct (w_store w).
Qed.


(** ** messages:history *)




Lemma recent_in_window limit x :
  (3 ≤ limit)%nat →
  x ∈ [log_entry_recent 197; log_entry_recent 198; log_entry_recent 199] →
  x ∈ scan_window limit log_200_recent.
Proof.
  intros Hlimit Hx. unfold scan_window.
  assert (take 3 (scan log_200_recent)
          = reverse [log_entry_recent 197; log_entry_recent 198;
                     log_entry_recent 199]) as Hnewest
    by (vm_compute; reflexivity).
  apply (subseteq_take 3). rewrite take_take.
  replace (3 `min` (limit * 2))%nat with 3%nat by lia.
  rewrite Hnewest. by apply elem_of_reverse.
Qed.















(** [C7] (as stated, refuted) A history request whose cursor names a
    document that is not in the log is answered with a messages:history
    event, the newest page, and no error event. *)
Lemma history_missing_cursor_no_error :
  let t := (exec env_ok (messages_history "s1" page_after_missing)
              world_hello).2 in
  chatMessages (w_store world_hello) !! "nope" = None ∧
  t = [Called (MessagesGet "nope") true;
       Called (MessagesQuery 100 None) true;
       Did (Emit (ToSocket "s1")
              (MessagesHistory [history_entry ("doc5", hello_doc)]));
       Did (Console (LogHistory 1 public_hub))] ∧
  (∀ to msg, Did (Emit to (Error msg)) ∉ t).
Proof.
  intros t. split; [by vm_compute|].
  assert (t = [Called (MessagesGet "nope") true;
               Called (MessagesQuery 100 None) true;
               Did (Emit (ToSocket "s1")
                      (MessagesHistory [history_entry ("doc5", hello_doc)]));
               Did (Console (LogHistory 1 public_hub))]) as ->
    by (by vm_compute).
  split; [done|]. intros to msg Hin. scan_run Hin.
Qed.

(** [C7] (amended) A history request whose cursor names a document that
    is not in the log is served as a request without cursor: when the two
    reads resolve, the requester receives the messages:history event with
    the newest page of the room, and no error event. *)
Theorem history_missing_cursor_ignored e sid data lastMessageId w :
  let room := or_default (h_roomId data) public_hub in
  let limit := or_default (h_limit data) 50 in
  let page :=
    reverse (take limit
      (room_messages room (scan_window limit (chatMessages (w_store w))))) in
  h_lastMessageId data = Some lastMessageId →
  lastMessageId ≠ "" →
  chatMessages (w_store w) !! lastMessageId = None →
  fails e (w_tick w) = false →
  fails e (S (w_tick w)) = false →
  exec e (messages_history sid data) w
  = ({| w_mem := w_mem w; w_store := w_store w;
        w_tick := S (S (w_tick w)) |},
     [Called (MessagesGet lastMessageId) true;
      Called (MessagesQuery (limit * 2) None) true;
      Did (Emit (ToSocket sid) (MessagesHistory page));
      Did (Console (LogHistory (length page) room))]).
Proof.
  intros room limit page Hcursor Hne Hmissing Hget Hquery.
  unfold messages_history. rewrite Hcursor.
  rewrite decide_False by done. simpl.
  unfold store_call. rewrite Hget. simpl. rewrite Hmissing. simpl.
  unfold store_call. rewrite Hquery. simpl. by destruct (w_store w).
Qed.

Lemma history_missing_cursor_ignored_witness :
  h_lastMessageId page_after_missing = Some "nope" ∧
  "nope" ≠ "" ∧
  chatMessages (w_store world_hello) !! "nope" = None ∧
  fails env_ok (w_tick world_hello) = false ∧
  fails env_ok (S (w_tick world_hello)) = false ∧
  exec env_ok (messages_history "s1" page_after_missing) world_hello
  = ({| w_mem := w_mem world_hello; w_store := w_store world_hello;
        w_tick := S (S (w_tick world_hello)) |},
     [Called (MessagesGet "nope") true;
      Called (MessagesQuery 100 None) true;
      Did (Emit (ToSocket "s1")
             (MessagesHistory [history_entry ("doc5", hello_doc)]));
      Did (Console (LogHistory 1 public_hub))]).
Proof.
  assert (chatMessages (w_store world_hello) !! "nope" = None) as Hmissing
    by (by vm_compute).
  split; [reflexivity|]. split; [discriminate|]. split; [exact Hmissing|].
  split; [reflexivity|]. split; [reflexivity|].
  rewrite (history_missing_cursor_ignored env_ok "s1" page_after_missing
             "nope" world_hello eq_refl ltac:(discriminate) Hmissing
             eq_refl eq_refl).
  by vm_compute.
Defined.

(** ** The table invariant *)

Section JsMapKeys.
Context {V : Type}.
Implicit Types (m : list (string * V)) (k : string) (v : V).

Lemma map_get_None m k : map_get k m = None ↔ k ∉ m.*1.
Proof.
  induction m as [|[k' v'] m IH]; simpl.
  - split; [intros _; apply not_elem_of_nil | done].
  - rewrite not_elem_of_cons. destruct (decide (k' = k)) as [->|Hne].
    + split; [done | intros [? _]; done].
    + rewrite IH. split; [intros ?; split; [congruence | done] | tauto].
Qed.

Lemma map_set_keys m k v :
  ∀ k', k' ∈ (map_set k v m).*1 ↔ k' = k ∨ k' ∈ m.*1.
Proof.
  induction m as [|[k1 v1] m IH]; intros k'; simpl.
  - rewrite list_elem_of_singleton, elem_of_nil. tauto.
  - destruct (decide (k1 = k)) as [->|Hne]; simpl.
    + rewrite !elem_of_cons. tauto.
    + rewrite !elem_of_cons, IH. tauto.
Qed.

Lemma map_set_NoDup m k v : NoDup m.*1 → NoDup (map_set k v m).*1.
Proof.
  induction m as [|[k1 v1] m IH]; simpl; intros Hnd.
  - apply NoDup_singleton.
  - apply NoDup_cons in Hnd as [Hk1 Hnd].
    destruct (decide (k1 = k)) as [->|Hne]; simpl.
    + by apply NoDup_cons.
    + apply NoDup_cons. split; [|auto].
      rewrite map_set_keys. intros [?|?]; done.
Qed.

Lemma map_delete_keys m k k' : k' ∈ (map_delete k m).*1 → k' ∈ m.*1.
Proof.
  induction m as [|[k1 v1] m IH]; simpl; [done|].
  destruct (decide (k1 = k)) as [->|Hne]; simpl; rewrite !elem_of_cons.
  - auto.
  - intros [?|?]; auto.
Qed.

Lemma map_delete_NoDup m k : NoDup m.*1 → NoDup (map_delete k m).*1.
Proof.
  induction m as [|[k1 v1] m IH]; simpl; intros Hnd; [done|].
  apply NoDup_cons in Hnd as [Hk1 Hnd].
  destruct (decide (k1 = k)) as [->|Hne]; simpl; [done|].
  apply NoDup_cons. split; [|auto].
  intros Hin%map_delete_keys. done.
Qed.

Lemma map_get_delete_eq m k : NoDup m.*1 → map_get k (map_delete k m) = None.
Proof.
  induction m as [|[k1 v1] m IH]; simpl; intros Hnd; [done|].
  apply NoDup_cons in Hnd as [Hk1 Hnd].
  destruct (decide (k1 = k)) as [->|Hne]; simpl.
  - by apply map_get_None.
  - rewrite decide_False by done. auto.
Qed.
End JsMapKeys.

Lemma tables_ok_init : tables_ok mem_init.
Proof.
  split_and!; try apply NoDup_nil_2.
  intros sid [x Hx]. discriminate Hx.
Qed.

Lemma tables_ok_join m sid s rooms :
  tables_ok m →
  tables_ok {| activeUsers := map_set sid s (activeUsers m);
               userRooms := map_set sid rooms (userRooms m) |}.
Proof.
  intros (Hau & Hur & Hsub). split_and!; simpl.
  - by apply map_set_NoDup.
  - by apply map_set_NoDup.
  - intros sid'. unfold members_have_sessions in *. simpl.
    rewrite !map_has_set. intros [->|?]; auto.
Qed.

Lemma tables_ok_leave m sid :
  tables_ok m →
  tables_ok {| activeUsers := map_delete sid (activeUsers m);
               userRooms := map_delete sid (userRooms m) |}.
Proof.
  intros (Hau & Hur & Hsub). split_and!; simpl.
  - by apply map_delete_NoDup.
  - by apply map_delete_NoDup.
  - intros sid'. unfold members_have_sessions, map_has in *. simpl.
    destruct (decide (sid = sid')) as [<-|Hne].
    + rewrite map_get_delete_eq by done. by intros [? ?].
    + rewrite !map_get_delete_ne by done. auto.
Qed.

Lemma keeps_for_each rooms f k m :
  keeps k m → keeps (for_each rooms f k) m.
Proof. induction rooms; simpl; auto. Qed.

Lemma handler_keeps sid ev m : tables_ok m → keeps (handler sid ev) m.
Proof.
  intros Hm. destruct ev as [d|d|d|d|d| |d]; simpl.
  - (* user:join *)
    intros joinedAt. split; [by apply tables_ok_join|].
    intros [[]|] m' Hm'; simpl; done.
  - (* message:send *)
    unfold message_send. simpl.
    destruct (map_get sid (activeUsers m)); simpl; [|done].
    intros now rnd createdAt. split; [done|].
    intros [firebaseId|] m' Hm'; simpl; done.
  - (* typing:start *)
    unfold typing_start. simpl.
    by destruct (map_get sid (activeUsers m)).
  - (* typing:stop *)
    unfold typing_stop. simpl.
    by destruct (map_get sid (activeUsers m)).
  - (* message:like *)
    unfold message_like. simpl.
    destruct (map_get sid (activeUsers m)); simpl; [|done].
    split; [done|]. intros [[doc|]|] m' Hm'; simpl; try done.
    split; [done|]. intros [[]|] m'' Hm''; simpl; done.
  - (* disconnect *)
    unfold disconnect. simpl.
    destruct (map_get sid (activeUsers m)); simpl; [|done].
    split; [done|]. intros [[]|] m' Hm'; simpl; [|done].
    apply keeps_for_each. simpl. by apply tables_ok_leave.
  - (* messages:history *)
    unfold messages_history.
    assert (∀ cursor m0, tables_ok m0 →
              keeps (Await (MessagesQuery (or_default (h_limit d) 50 * 2) cursor)
                       (fun res => match res with
                        | Ok snapshot =>
                            Out (Emit (ToSocket sid)
                                   (MessagesHistory
                                      (reverse (take (or_default (h_limit d) 50)
                                         (room_messages
                                            (or_default (h_roomId d) public_hub)
                                            snapshot)))))
                              (Out (Console
                                      (LogHistory
                                         (length (reverse (take (or_default (h_limit d) 50)
                                            (room_messages
                                               (or_default (h_roomId d) public_hub)
                                               snapshot))))
                                         (or_default (h_roomId d) public_hub)))
                                 Ret)
                        | Err =>
                            Out (Console ErrHistory)
                              (Out (Emit (ToSocket sid)
                                      (Error "Failed to load message history"))
                                 Ret)
                        end)) m0) as Hquery.
    { intros cursor m0 Hm0. simpl. split; [done|].
      intros [snapshot|] m' Hm'; simpl; done. }
    destruct (h_lastMessageId d) as [lastMessageId|]; [|by apply Hquery].
    destruct (decide (lastMessageId = "")); [by apply Hquery|].
    simpl. split; [done|].
    intros [[doc|]|] m' Hm'; simpl; try done; split; try done;
      intros [snapshot|] m'' Hm''; simpl; done.
Qed.

Lemma keeps_sync e p m n m' n' o rest :
  keeps p m → sync e p m n = (m', n', o, rest) →
  tables_ok m' ∧ resumable rest.
Proof.
  revert m n m' n' o rest.
  induction p as [|k IH|m0 k IH|x k IH|A q k IH|A r k IH];
    intros m n m' n' o rest Hkeeps Hsync; simpl in *.
  - by simplify_eq.
  - eauto.
  - eauto.
  - destruct (sync e k m n) as [[[m1 n1] o1] r1] eqn:Hk. simplify_eq. eauto.
  - eauto.
  - simplify_eq. simpl. tauto.
Qed.

Lemma park_resumable rest pool :
  resumable rest → Forall resumable pool → Forall resumable (park rest pool).
Proof. intros Hrest Hpool. destruct rest; simpl; auto. Qed.

Lemma istep_tables_ok c c' :
  istep c c' →
  tables_ok c.1 ∧ Forall resumable c.2 →
  tables_ok c'.1 ∧ Forall resumable c'.2.
Proof.
  destruct 1 as [e n sid ev m pool m' n' o rest Hsync
                |e n A r k res m pool1 pool2 m' n' o rest Hsync];
    simpl; intros [Hm Hpool].
  - apply keeps_sync in Hsync as [? ?]; [|by apply handler_keeps].
    split; [done|]. by apply park_resumable.
  - apply Forall_app in Hpool as [Hpool1 Hpool2].
    apply Forall_cons in Hpool2 as [Hk Hpool2]. simpl in Hk.
    apply keeps_sync in Hsync as [? ?]; [|by apply Hk].
    split; [done|]. apply Forall_app. split; [done|].
    by apply park_resumable.
Qed.

Lemma reachable_tables_ok c :
  reachable c → tables_ok c.1 ∧ Forall resumable c.2.
Proof.
  unfold reachable. revert c.
  apply (rtc_ind_r (fun c => tables_ok c.1 ∧ Forall resumable c.2)).
  - split; [apply tables_ok_init | constructor].
  - intros c c' _ Hstep IH. by eapply istep_tables_ok.
Qed.

(** A run of [exec] is a particular interleaving: the handler is resumed
    as soon as its call has been answered by the store model. *)
Lemma exec_istep e p w pool m n o rest :
  sync e p (w_mem w) (w_tick w) = (m, n, o, rest) →
  rtc istep (m, park rest pool) (w_mem (exec e p w).1, pool).
Proof.
  revert w m n o rest.
  induction p as [|k IH|m0 k IH|x k IH|A q k IH|A r k IH];
    intros w m n o rest Hsync; simpl in *.
  - simplify_eq. done.
  - eauto.
  - by apply (IH {| w_mem := m0; w_store := w_store w; w_tick := w_tick w |}
                 m n o rest).
  - destruct (sync e k (w_mem w) (w_tick w)) as [[[m1 n1] o1] r1] eqn:Hk.
    simplify_eq. specialize (IH w _ _ _ _ Hk).
    by destruct (exec e k w).
  - by apply (IH _ {| w_mem := w_mem w; w_store := w_store w;
                      w_tick := S (w_tick w) |} m n o rest).
  - simplify_eq. simpl.
    destruct (store_call e (w_tick w) r (w_store w)) as [res st].
    set (w1 := {| w_mem := w_mem w; w_store := st; w_tick := S (w_tick w) |}).
    destruct (sync e (k res) (w_mem w1) (w_tick w1)) as [[[m1 n1] o1] r1]
      eqn:Hk.
    specialize (IH res w1 _ _ _ _ Hk).
    destruct (exec e (k res) w1) as [w2 t2]. simpl in *.
    eapply rtc_l; [|exact IH].
    exact (istep_resume e (S (w_tick w)) A r k res (w_mem w) [] pool
             m1 n1 o1 r1 Hk).
Qed.

Lemma exec_all_istep e evs w pool :
  rtc istep (w_mem w, pool) (w_mem (exec_all e evs w).1, pool).
Proof.
  revert w. induction evs as [|[sid ev] evs IH]; intros w; simpl; [done|].
  destruct (sync e (handler sid ev) (w_mem w) (w_tick w))
    as [[[m1 n1] o1] r1] eqn:Hsync.
  pose proof (exec_istep e (handler sid ev) w pool _ _ _ _ Hsync) as Hrun.
  destruct (exec e (handler sid ev) w) as [w1 t1]. simpl in Hrun.
  specialize (IH w1). destruct (exec_all e evs w1) as [w2 t2]. simpl in *.
  eapply rtc_l; [exact (istep_event e _ sid ev _ pool _ _ _ _ Hsync)|].
  by etrans.
Qed.

Lemma exec_all_reachable e evs :
  reachable (w_mem (exec_all e evs world_init).1, []).
Proof. apply (exec_all_istep e evs world_init []). Qed.

(** [C9] In every state reachable from the empty tables by starting
    handlers for user:join, message:send, typing, message:like,
    disconnect and messages:history events and resuming them in any
    order, with any outcome of their store calls, a socket that has an
    entry in [userRooms] has an entry in [activeUsers].  Sequences of
    events handled one after the other are among these states
    ([exec_all_reachable]). *)
Theorem membership_implies_session m pool sid :
  reachable (m, pool) →
  map_has sid (userRooms m) → map_has sid (activeUsers m).
Proof.
  intros Hreach. apply reachable_tables_ok in Hreach as [(_ & _ & Hsub) _].
  apply Hsub.
Qed.

Lemma membership_implies_session_witness :
  reachable (w_mem world_alice, []) ∧
  map_has "s1" (userRooms (w_mem world_alice)) ∧
  map_has "s1" (activeUsers (w_mem world_alice)).
Proof.
  assert (reachable (w_mem world_alice, [])) as Hreach
    by exact (exec_all_reachable env_ok [("s1", UserJoin alice)]).
  assert (map_has "s1" (userRooms (w_mem world_alice))) as Hroom
    by (by eexists).
  split; [exact Hreach|]. split; [exact Hroom|].
  exact (membership_implies_session (w_mem world_alice) [] "s1" Hreach Hroom).
Defined.

(** ** Further properties of the handlers *)

Lemma store_call_ok e n {A} (r : request A) st :
  fails e n = false →
  store_call e n r st = commit (serverTime e n) (autoId e n) r st.
Proof. intros Hok. unfold store_call. by rewrite Hok. Qed.

Lemma store_call_rejected e n {A} (r : request A) st :
  fails e n = true → store_call e n r st = (Err, st).
Proof. intros Hko. unfold store_call. by rewrite Hko. Qed.

(** *** typing:start and typing:stop *)

(** [X1] A typing event from a socket without session does nothing: no
    event is emitted, no store call is made, nothing changes. *)
Theorem typing_unauthenticated_silent e sid data w :
  map_get sid (activeUsers (w_mem w)) = None →
  exec e (typing_start sid data) w = (w, [])
  ∧ exec e (typing_stop sid data) w = (w, []).
Proof.
  intros Hno. unfold typing_start, typing_stop. simpl. by rewrite Hno.
Qed.

Lemma typing_unauthenticated_silent_witness :
  map_get "s2" (activeUsers (w_mem world_alice)) = None ∧
  exec env_ok (typing_start "s2" typing_here) world_alice = (world_alice, [])
  ∧ exec env_ok (typing_stop "s2" typing_here) world_alice
    = (world_alice, []).
Proof.
  split; [reflexivity|].
  apply (typing_unauthenticated_silent env_ok "s2" typing_here world_alice).
  reflexivity.
Defined.

(** [X2] A typing event from a socket with a session is relayed, with the
    user's id and name, to the other members of one room and to nobody
    else: the room named in the payload, or the public room when the
    payload names none or names the empty string.  No store call is made
    and nothing changes. *)
Theorem typing_relayed_to_room e sid data w user :
  map_get sid (activeUsers (w_mem w)) = Some user →
  ∃ room,
    (match t_roomId data with
     | None => room = public_hub
     | Some r => (r = "" → room = public_hub) ∧ (r ≠ "" → room = r)
     end)
    ∧ exec e (typing_start sid data) w
      = (w, [Did (Emit (ToRoomExcept room sid)
                    (TypingStart (s_userId user) (s_userName user)))])
    ∧ exec e (typing_stop sid data) w
      = (w, [Did (Emit (ToRoomExcept room sid)
                    (TypingStop (s_userId user) (s_userName user)))]).
Proof.
  intros Huser. exists (str_or (t_roomId data) public_hub). split.
  - unfold str_or. destruct (t_roomId data) as [r|]; [|done].
    destruct (decide (r = "")); split; done.
  - unfold typing_start, typing_stop. simpl. by rewrite Huser.
Qed.

Lemma typing_relayed_to_room_witness :
  map_get "s1" (activeUsers (w_mem world_alice))
  = Some (new_session "s1" alice 1000) ∧
  ∃ room,
    room = public_hub
    ∧ exec env_ok (typing_start "s1" typing_here) world_alice
      = (world_alice,
         [Did (Emit (ToRoomExcept room "s1") (TypingStart "u-alice" "Alice"))])
    ∧ exec env_ok (typing_stop "s1" typing_here) world_alice
      = (world_alice,
         [Did (Emit (ToRoomExcept room "s1") (TypingStop "u-alice" "Alice"))]).
Proof.
  split; [reflexivity|].
  apply (typing_relayed_to_room env_ok "s1" typing_here world_alice
           (new_session "s1" alice 1000)).
  reflexivity.
Defined.

(** *** message:like *)

(** [X3] A message:like from a socket without session is dropped in
    silence: unlike message:send, no error is sent back; no store call is
    made and nothing changes. *)
Theorem like_unauthenticated_silent e sid data w :
  map_get sid (activeUsers (w_mem w)) = None →
  exec e (message_like sid data) w = (w, []).
Proof.
  intros Hno. unfold message_like. simpl. by rewrite Hno.
Qed.

Lemma like_unauthenticated_silent_witness :
  map_get "s2" (activeUsers (w_mem world_hello)) = None ∧
  exec env_ok (message_like "s2" like_hello) world_hello = (world_hello, []).
Proof.
  split; [reflexivity|].
  apply (like_unauthenticated_silent env_ok "s2" like_hello world_hello).
  reflexivity.
Defined.

(** [X4] A message:like that names a message absent from the log reads
    the store once and stops: nothing is written, nothing is emitted (no
    message:liked, no error), and the store is unchanged. *)
Theorem like_missing_message_silent e sid data w user :
  map_get sid (activeUsers (w_mem w)) = Some user →
  chatMessages (w_store w) !! l_messageId data = None →
  fails e (w_tick w) = false →
  exec e (message_like sid data) w
  = ({| w_mem := w_mem w; w_store := w_store w; w_tick := S (w_tick w) |},
     [Called (MessagesGet (l_messageId data)) true]).
Proof.
  intros Huser Hmissing Hok. unfold message_like. simpl. rewrite Huser.
  simpl. rewrite store_call_ok by done. simpl. by rewrite Hmissing.
Qed.

Lemma like_missing_message_silent_witness :
  let data := {| l_messageId := "nope"; l_action := "like" |} in
  map_get "s1" (activeUsers (w_mem world_hello))
  = Some (new_session "s1" alice 1000) ∧
  chatMessages (w_store world_hello) !! "nope" = None ∧
  fails env_ok (w_tick world_hello) = false ∧
  exec env_ok (message_like "s1" data) world_hello
  = ({| w_mem := w_mem world_hello; w_store := w_store world_hello;
        w_tick := S (w_tick world_hello) |},
     [Called (MessagesGet "nope") true]).
Proof.
  intros data.
  assert (chatMessages (w_store world_hello) !! "nope" = None) as Hmissing
    by (by vm_compute).
  split; [reflexivity|]. split; [exact Hmissing|]. split; [reflexivity|].
  exact (like_missing_message_silent env_ok "s1" data world_hello
           (new_session "s1" alice 1000) eq_refl Hmissing eq_refl).
Defined.

(** [X5] When the store rejects the read of a message:like, or the write
    that follows a resolved read of an existing message, the handler only
    writes a console line: no client receives anything (neither
    message:liked nor an error) and the store is unchanged. *)
Theorem like_store_failure_silent e sid data w user w' t :
  map_get sid (activeUsers (w_mem w)) = Some user →
  exec e (message_like sid data) w = (w', t) →
  (fails e (w_tick w) = true →
   w_store w' = w_store w ∧
   t = [Called (MessagesGet (l_messageId data)) false;
        Did (Console ErrLike)])
  ∧ (∀ doc,
       fails e (w_tick w) = false →
       chatMessages (w_store w) !! l_messageId data = Some doc →
       fails e (S (w_tick w)) = true →
       w_store w' = w_store w ∧
       t = [Called (MessagesGet (l_messageId data)) true;
            Called (MessagesUpdateLikes (l_messageId data)
                      (react (l_action data) (s_userId user)
                         (m_likes (d_data doc)))) false;
            Did (Console ErrLike)]).
Proof.
  intros Huser Hrun. unfold message_like in Hrun. simpl in Hrun.
  rewrite Huser in Hrun. simpl in Hrun. split.
  - intros Hko. rewrite store_call_rejected in Hrun by done.
    simpl in Hrun. by simplify_eq.
  - intros doc Hok Hdoc Hko. rewrite store_call_ok in Hrun by done.
    simpl in Hrun. rewrite Hdoc in Hrun. simpl in Hrun.
    rewrite store_call_rejected in Hrun by done. simpl in Hrun.
    by simplify_eq.
Qed.

Lemma like_store_failure_silent_witness :
  let run := exec env_down (message_like "s1" like_hello) world_hello in
  map_get "s1" (activeUsers (w_mem world_hello))
  = Some (new_session "s1" alice 1000) ∧
  fails env_down (w_tick world_hello) = true ∧
  w_store run.1 = w_store world_hello ∧
  run.2 = [Called (MessagesGet "doc5") false; Did (Console ErrLike)].
Proof.
  intros run. split; [reflexivity|]. split; [reflexivity|].
  apply (proj1 (like_store_failure_silent env_down "s1" like_hello
                  world_hello (new_session "s1" alice 1000) run.1 run.2
                  eq_refl eq_refl)).
  reflexivity.
Defined.

Lemma react_unlike u l : react "unlike" u l = filter (fun id => id ≠ u) l.
Proof. reflexivity. Qed.

Lemma filter_ne_fresh (u : string) (l : list string) :
  u ∉ l → filter (fun id => id ≠ u) l = l.
Proof.
  induction l as [|x l IH]; [done|]. rewrite not_elem_of_cons.
  intros [Hne Hnotin]. rewrite filter_cons_True by done. by rewrite IH.
Qed.

Lemma react_unlike_like u l : u ∉ l → react "unlike" u (react "like" u l) = l.
Proof.
  intros Hnotin. rewrite react_like_fresh, react_unlike by done.
  rewrite filter_app, filter_ne_fresh by done.
  rewrite filter_cons_False by (intros Hne; by apply Hne).
  by rewrite filter_nil, app_nil_r.
Qed.

(** The run of a message:like whose read and write both resolve. *)
Lemma like_resolved_run e sid data w user doc :
  map_get sid (activeUsers (w_mem w)) = Some user →
  chatMessages (w_store w) !! l_messageId data = Some doc →
  fails e (w_tick w) = false →
  fails e (S (w_tick w)) = false →
  let likes := react (l_action data) (s_userId user) (m_likes (d_data doc)) in
  exec e (message_like sid data) w
  = ({| w_mem := w_mem w;
        w_store :=
          {| chatPresence := chatPresence (w_store w);
             chatMessages :=
               <[l_messageId data :=
                   {| d_data := with_likes likes (d_data doc);
                      d_createdAt := d_createdAt doc |}]>
                 (chatMessages (w_store w)) |};
        w_tick := S (S (w_tick w)) |},
     [Called (MessagesGet (l_messageId data)) true;
      Called (MessagesUpdateLikes (l_messageId data) likes) true;
      Did (Emit (ToRoom (str_or (Some (m_roomId (d_data doc))) public_hub))
             (MessageLiked (l_messageId data) likes (s_userId user)
                (l_action data)))]).
Proof.
  intros Huser Hdoc Hget Hput likes. unfold message_like. simpl.
  rewrite Huser. simpl. rewrite store_call_ok by done. simpl.
  rewrite Hdoc. simpl. rewrite store_call_ok by done. simpl.
  by rewrite Hdoc.
Qed.

(** [X6] A resolved 'unlike' persists and broadcasts the [likes] array
    without the user: every other entry is kept, in its order, and the
    user's own entry is gone. *)
Theorem unlike_removes_user e sid messageId w user doc w' t :
  map_get sid (activeUsers (w_mem w)) = Some user →
  chatMessages (w_store w) !! messageId = Some doc →
  fails e (w_tick w) = false →
  fails e (S (w_tick w)) = false →
  exec e (message_like sid {| l_messageId := messageId;
                              l_action := "unlike" |}) w = (w', t) →
  ∃ likes,
    (∀ x, x ∈ likes ↔ x ∈ m_likes (d_data doc) ∧ x ≠ s_userId user)
    ∧ likes `sublist_of` m_likes (d_data doc)
    ∧ chatMessages (w_store w') !! messageId
      = Some {| d_data := with_likes likes (d_data doc);
                d_createdAt := d_createdAt doc |}
    ∧ Did (Emit (ToRoom (str_or (Some (m_roomId (d_data doc))) public_hub))
             (MessageLiked messageId likes (s_userId user) "unlike")) ∈ t.
Proof.
  intros Huser Hdoc Hget Hput Hrun.
  rewrite (like_resolved_run e sid _ w user doc) in Hrun by done.
  simpl in Hrun. injection Hrun as <- <-.
  exists (filter (fun id => id ≠ s_userId user) (m_likes (d_data doc))).
  split_and!.
  - intros x. by rewrite list_elem_of_filter, (comm and).
  - apply sublist_filter.
  - simpl. by rewrite lookup_insert_eq.
  - rewrite react_unlike. set_solver.
Qed.

Lemma unlike_removes_user_witness :
  let run := exec env_ok (message_like "s1" unlike_hello) world_liked in
  map_get "s1" (activeUsers (w_mem world_liked))
  = Some (new_session "s1" alice 1000) ∧
  chatMessages (w_store world_liked) !! "doc5"
  = Some {| d_data := with_likes ["u-alice"] (d_data hello_doc);
            d_createdAt := 1004 |} ∧
  ∃ likes,
    (∀ x, x ∈ likes ↔ x ∈ ["u-alice"] ∧ x ≠ "u-alice")
    ∧ likes `sublist_of` ["u-alice"]
    ∧ chatMessages (w_store run.1) !! "doc5"
      = Some {| d_data := with_likes likes (d_data hello_doc);
                d_createdAt := 1004 |}
    ∧ Did (Emit (ToRoom public_hub)
             (MessageLiked "doc5" likes "u-alice" "unlike")) ∈ run.2.
Proof.
  intros run.
  assert (chatMessages (w_store world_liked) !! "doc5"
          = Some {| d_data := with_likes ["u-alice"] (d_data hello_doc);
                    d_createdAt := 1004 |}) as Hdoc by (by vm_compute).
  split; [reflexivity|]. split; [exact Hdoc|].
  exact (unlike_removes_user env_ok "s1" "doc5" world_liked
           (new_session "s1" alice 1000) _ run.1 run.2
           eq_refl Hdoc eq_refl eq_refl eq_refl).
Defined.

(** [X7] Like, then unlike, is a round trip: for a user who had not liked
    the message, a resolved 'like' followed by a resolved 'unlike' leaves
    the store exactly as it was before the two events. *)
Theorem like_unlike_round_trip e sid messageId w user doc w1 t1 w2 t2 :
  map_get sid (activeUsers (w_mem w)) = Some user →
  chatMessages (w_store w) !! messageId = Some doc →
  s_userId user ∉ m_likes (d_data doc) →
  (∀ i, (i < 4)%nat → fails e (i + w_tick w) = false) →
  exec e (message_like sid {| l_messageId := messageId;
                              l_action := "like" |}) w = (w1, t1) →
  exec e (message_like sid {| l_messageId := messageId;
                              l_action := "unlike" |}) w1 = (w2, t2) →
  w_store w2 = w_store w.
Proof.
  intros Huser Hdoc Hfresh Hok Hrun1 Hrun2.
  pose proof (Hok 0%nat ltac:(lia)) as H0.
  pose proof (Hok 1%nat ltac:(lia)) as H1.
  pose proof (Hok 2%nat ltac:(lia)) as H2.
  pose proof (Hok 3%nat ltac:(lia)) as H3. simpl in H0, H1, H2, H3.
  rewrite (like_resolved_run e sid _ w user doc) in Hrun1 by done.
  simpl in Hrun1. injection Hrun1 as <- <-.
  erewrite (like_resolved_run e sid) in Hrun2;
    [|exact Huser|simpl; apply lookup_insert_eq|done|done].
  simpl in Hrun2. injection Hrun2 as <- <-. simpl.
  rewrite react_unlike_like by done. rewrite insert_insert_eq.
  destruct (w_store w) as [pres msgs]. simpl in *. f_equal.
  apply insert_id. rewrite Hdoc. f_equal.
  destruct doc as [[] ?]. done.
Qed.

Lemma like_unlike_round_trip_witness :
  let once := exec env_ok (message_like "s1" like_hello) world_hello in
  let back := exec env_ok (message_like "s1" unlike_hello) once.1 in
  map_get "s1" (activeUsers (w_mem world_hello))
  = Some (new_session "s1" alice 1000) ∧
  chatMessages (w_store world_hello) !! "doc5" = Some hello_doc ∧
  ("u-alice" ∉ m_likes (d_data hello_doc)) ∧
  w_store back.1 = w_store world_hello.
Proof.
  intros once back.
  assert (chatMessages (w_store world_hello) !! "doc5" = Some hello_doc)
    as Hdoc by (by vm_compute).
  assert ("u-alice" ∉ m_likes (d_data hello_doc)) as Hfresh
    by apply not_elem_of_nil.
  split; [reflexivity|]. split; [exact Hdoc|]. split; [exact Hfresh|].
  exact (like_unlike_round_trip env_ok "s1" "doc5" world_hello
           (new_session "s1" alice 1000) hello_doc once.1 once.2
           back.1 back.2 eq_refl Hdoc Hfresh (fun _ _ => eq_refl)
           eq_refl eq_refl).
Defined.

(** [X8] Whatever the action, the user and the answers of the store, a
    message:like changes nothing but the [likes] array of the message it
    names: the tables, the presence records and every other message are
    untouched, an absent message stays absent, and the named message
    keeps its creation time and all its other fields. *)
Theorem like_touches_only_likes e sid data w w' t :
  exec e (message_like sid data) w = (w', t) →
  w_mem w' = w_mem w
  ∧ chatPresence (w_store w') = chatPresence (w_store w)
  ∧ (∀ id, id ≠ l_messageId data →
           chatMessages (w_store w') !! id = chatMessages (w_store w) !! id)
  ∧ match chatMessages (w_store w) !! l_messageId data with
    | None => chatMessages (w_store w') !! l_messageId data = None
    | Some doc =>
        ∃ likes,
          chatMessages (w_store w') !! l_messageId data
          = Some {| d_data := with_likes likes (d_data doc);
                    d_createdAt := d_createdAt doc |}
    end.
Proof.
  intros Hrun.
  assert (match chatMessages (w_store w) !! l_messageId data with
          | None => chatMessages (w_store w) !! l_messageId data = None
          | Some doc =>
              ∃ likes,
                chatMessages (w_store w) !! l_messageId data
                = Some {| d_data := with_likes likes (d_data doc);
                          d_createdAt := d_createdAt doc |}
          end) as Hsame.
  { destruct (chatMessages (w_store w) !! l_messageId data) as [doc|];
      [|done].
    exists (m_likes (d_data doc)). by destruct doc as [[] ?]. }
  unfold message_like in Hrun. simpl in Hrun.
  destruct (map_get sid (activeUsers (w_mem w))) as [user|];
    simpl in Hrun; [|by simplify_eq].
  unfold store_call at 1 in Hrun.
  destruct (fails e (w_tick w)); simpl in Hrun; [by simplify_eq|].
  destruct (chatMessages (w_store w) !! l_messageId data) as [doc|] eqn:Hdoc;
    simpl in Hrun.
  2:{ simplify_eq. simpl. by rewrite Hdoc. }
  unfold store_call in Hrun.
  destruct (fails e (S (w_tick w))); simpl in Hrun.
  { simplify_eq. simpl. by rewrite Hdoc. }
  rewrite Hdoc in Hrun. simpl in Hrun. simplify_eq. simpl.
  split_and!; [done|done| |].
  - intros id Hne. by rewrite lookup_insert_ne.
  - eexists. by rewrite lookup_insert_eq.
Qed.

Lemma like_touches_only_likes_witness :
  let run := exec env_ok (message_like "s1" like_hello) world_hello in
  w_mem run.1 = w_mem world_hello
  ∧ chatPresence (w_store run.1) = chatPresence (w_store world_hello)
  ∧ (∀ id, id ≠ "doc5" →
           chatMessages (w_store run.1) !! id
           = chatMessages (w_store world_hello) !! id)
  ∧ match chatMessages (w_store world_hello) !! "doc5" with
    | None => chatMessages (w_store run.1) !! "doc5" = None
    | Some doc =>
        ∃ likes,
          chatMessages (w_store run.1) !! "doc5"
          = Some {| d_data := with_likes likes (d_data doc);
                    d_createdAt := d_createdAt doc |}
    end.
Proof.
  intros run.
  exact (like_touches_only_likes env_ok "s1" like_hello world_hello
           run.1 run.2 eq_refl).
Defined.

(** *** message:send followed by message:like *)

(** The run of a message:send whose write resolves. *)
Lemma send_resolved_run e sid messageData w user :
  map_get sid (activeUsers (w_mem w)) = Some user →
  let n := w_tick w in
  let message := new_message user messageData (clock e n) (random e (S n)) in
  let firebaseId := autoId e (S (S (S n))) in
  fails e (S (S (S n))) = false →
  chatMessages (w_store w) !! firebaseId = None →
  exec e (message_send sid messageData) w
  = ({| w_mem := w_mem w;
        w_store :=
          {| chatPresence := chatPresence (w_store w);
             chatMessages :=
               <[firebaseId :=
                   {| d_data := with_timestamp
                                  (Date (serverTime e (S (S (S n))))) message;
                      d_createdAt := clock e (S (S n)) |}]>
                 (chatMessages (w_store w)) |};
        w_tick := S (S (S (S (S n)))) |},
     [Called (MessagesAdd {| d_data := with_timestamp ServerTimestamp message;
                             d_createdAt := clock e (S (S n)) |}) true;
      Did (Emit (ToRoom (m_roomId message))
             (MessageNew
                (with_timestamp (Date (clock e (S (S (S (S n)))))) message)
                firebaseId));
      Did (Console (LogSent (s_userName user) (m_roomId message)))]).
Proof.
  intros Huser n message firebaseId Hok Hfresh.
  unfold message_send. simpl. rewrite Huser. simpl.
  rewrite store_call_ok by done. simpl.
  fold n. fold firebaseId. by rewrite Hfresh.
Qed.

(** [X9] The first like of a freshly sent message: after a message:send
    whose write resolved, a resolved 'like' of the new document by any
    connection with a session persists and broadcasts [likes] as the
    one-element array of the liker's user id. *)
Theorem first_like_after_send e sid sid' messageData w user liker
    w1 t1 w2 t2 :
  let n := w_tick w in
  let firebaseId := autoId e (S (S (S n))) in
  map_get sid (activeUsers (w_mem w)) = Some user →
  map_get sid' (activeUsers (w_mem w)) = Some liker →
  fails e (S (S (S n))) = false →
  chatMessages (w_store w) !! firebaseId = None →
  fails e (5 + n) = false →
  fails e (6 + n) = false →
  exec e (message_send sid messageData) w = (w1, t1) →
  exec e (message_like sid' {| l_messageId := firebaseId;
                               l_action := "like" |}) w1 = (w2, t2) →
  (∃ doc, chatMessages (w_store w2) !! firebaseId = Some doc
          ∧ m_likes (d_data doc) = [s_userId liker]
          ∧ m_content (d_data doc) = sd_content messageData)
  ∧ ∃ room, Did (Emit (ToRoom room)
                   (MessageLiked firebaseId [s_userId liker]
                      (s_userId liker) "like")) ∈ t2.
Proof.
  intros n firebaseId Huser Hliker Hadd Hfresh Hget Hput Hsend Hlike.
  rewrite (send_resolved_run e sid messageData w user) in Hsend by done.
  injection Hsend as <- <-.
  erewrite (like_resolved_run e sid') in Hlike;
    [|exact Hliker|simpl; apply lookup_insert_eq|done|done].
  simpl in Hlike. injection Hlike as <- <-. simpl. split.
  - eexists. split; [apply lookup_insert_eq|]. done.
  - eexists. apply elem_of_cons. right. apply elem_of_cons. right.
    apply list_elem_of_singleton. reflexivity.
Qed.

Lemma first_like_after_send_witness :
  let sent := exec env_ok (message_send "s1" hello) world_alice in
  let liked := exec env_ok (message_like "s1" like_hello) sent.1 in
  map_get "s1" (activeUsers (w_mem world_alice))
  = Some (new_session "s1" alice 1000) ∧
  chatMessages (w_store world_alice) !! "doc5" = None ∧
  (∃ doc, chatMessages (w_store liked.1) !! "doc5" = Some doc
          ∧ m_likes (d_data doc) = ["u-alice"]
          ∧ m_content (d_data doc) = "hello")
  ∧ ∃ room, Did (Emit (ToRoom room)
                   (MessageLiked "doc5" ["u-alice"] "u-alice" "like"))
            ∈ liked.2.
Proof.
  intros sent liked.
  assert (chatMessages (w_store world_alice) !! "doc5" = None) as Hfresh
    by (by vm_compute).
  split; [reflexivity|]. split; [exact Hfresh|].
  exact (first_like_after_send env_ok "s1" "s1" hello world_alice
           (new_session "s1" alice 1000) (new_session "s1" alice 1000)
           sent.1 sent.2 liked.1 liked.2
           eq_refl eq_refl eq_refl Hfresh eq_refl eq_refl eq_refl eq_refl).
Defined.

(** [X10] The two handlers disagree on an empty room name.  A message
    sent with [roomId] the empty string is stored with that room and its
    message:new goes to the room named by the empty string, whereas the
    message:liked of a later like of that message goes to the public
    room. *)
Theorem empty_room_like_mismatch e sid messageData w user w1 t1 w2 t2 :
  let n := w_tick w in
  let firebaseId := autoId e (S (S (S n))) in
  map_get sid (activeUsers (w_mem w)) = Some user →
  sd_roomId messageData = Some "" →
  fails e (S (S (S n))) = false →
  chatMessages (w_store w) !! firebaseId = None →
  fails e (5 + n) = false →
  fails e (6 + n) = false →
  exec e (message_send sid messageData) w = (w1, t1) →
  exec e (message_like sid {| l_messageId := firebaseId;
                              l_action := "like" |}) w1 = (w2, t2) →
  (∃ m, t1 !! 1%nat = Some (Did (Emit (ToRoom "") (MessageNew m firebaseId))))
  ∧ t2 !! 2%nat
    = Some (Did (Emit (ToRoom public_hub)
                   (MessageLiked firebaseId [s_userId user] (s_userId user)
                      "like"))).
Proof.
  intros n firebaseId Huser Hroom Hadd Hfresh Hget Hput Hsend Hlike.
  rewrite (send_resolved_run e sid messageData w user) in Hsend by done.
  injection Hsend as <- <-.
  erewrite (like_resolved_run e sid) in Hlike;
    [|exact Huser|simpl; apply lookup_insert_eq|done|done].
  simpl in Hlike. injection Hlike as <- <-. simpl.
  rewrite Hroom. simpl. split; [by eexists | done].
Qed.

Lemma empty_room_like_mismatch_witness :
  let nowhere :=
    {| sd_content := "hello"; sd_type := None; sd_roomId := Some "" |} in
  let sent := exec env_ok (message_send "s1" nowhere) world_alice in
  let liked := exec env_ok (message_like "s1" like_hello) sent.1 in
  map_get "s1" (activeUsers (w_mem world_alice))
  = Some (new_session "s1" alice 1000) ∧
  chatMessages (w_store world_alice) !! "doc5" = None ∧
  (∃ m, sent.2 !! 1%nat = Some (Did (Emit (ToRoom "") (MessageNew m "doc5"))))
  ∧ liked.2 !! 2%nat
    = Some (Did (Emit (ToRoom public_hub)
                   (MessageLiked "doc5" ["u-alice"] "u-alice" "like"))).
Proof.
  intros nowhere sent liked.
  assert (chatMessages (w_store world_alice) !! "doc5" = None) as Hfresh
    by (by vm_compute).
  split; [reflexivity|]. split; [exact Hfresh|].
  exact (empty_room_like_mismatch env_ok "s1" nowhere world_alice
           (new_session "s1" alice 1000) sent.1 sent.2 liked.1 liked.2
           eq_refl eq_refl eq_refl Hfresh eq_refl eq_refl eq_refl eq_refl).
Defined.

(** *** messages:history *)

(** The outcomes of a history request: the state is left as it was, and
    the run emits one event, to the requester: the error when a read was
    rejected, otherwise the page computed from the query started after
    the cursor. *)
Lemma history_outcome e sid data w w' t :
  exec e (messages_history sid data) w = (w', t) →
  let c := chatMessages (w_store w) in
  let room := or_default (h_roomId data) public_hub in
  let limit := or_default (h_limit data) 50 in
  w_mem w' = w_mem w ∧ w_store w' = w_store w ∧
  if all_resolved t
  then emissions t
       = [(ToSocket sid,
           MessagesHistory
             (reverse (take limit
                (room_messages room
                   (run_query (limit * 2) (history_cursor data c) c)))))]
  else emissions t
       = [(ToSocket sid, Error "Failed to load message history")].
Proof.
  intros Hrun c room limit.
  assert (∀ n cursor w0 w1 t1,
            w_store w0 = w_store w → w_mem w0 = w_mem w →
            exec e (Await (MessagesQuery (limit * 2) cursor)
                      (fun res => match res with
                       | Ok snapshot =>
                           Out (Emit (ToSocket sid)
                                  (MessagesHistory
                                     (reverse (take limit
                                        (room_messages room snapshot)))))
                             (Out (Console
                                     (LogHistory
                                        (length (reverse (take limit
                                           (room_messages room snapshot))))
                                        room))
                                Ret)
                       | Err =>
                           Out (Console ErrHistory)
                             (Out (Emit (ToSocket sid)
                                     (Error "Failed to load message history"))
                                Ret)
                       end)) w0 = (w1, t1) →
            w_tick w0 = n →
            w_mem w1 = w_mem w ∧ w_store w1 = w_store w ∧
            if all_resolved t1
            then emissions t1
                 = [(ToSocket sid,
                     MessagesHistory
                       (reverse (take limit
                          (room_messages room
                             (run_query (limit * 2) cursor c)))))]
            else emissions t1
                 = [(ToSocket sid, Error "Failed to load message history")])
    as Hquery.
  { intros n cursor w0 w1 t1 Hst Hmem Hq _. simpl in Hq.
    unfold store_call in Hq. destruct (fails e (w_tick w0)); simpl in Hq;
      simplify_eq; simpl; rewrite ?Hst; done. }
  unfold messages_history in Hrun. fold room limit in Hrun.
  unfold history_cursor.
  destruct (h_lastMessageId data) as [id|];
    [|by eapply Hquery].
  destruct (decide (id = "")); [by eapply Hquery|].
  simpl in Hrun. unfold store_call at 1 in Hrun.
  destruct (fails e (w_tick w)); simpl in Hrun; [by simplify_eq|].
  fold c in Hrun.
  destruct (c !! id) as [doc|] eqn:Hdoc; simpl in Hrun.
  - unfold store_call in Hrun.
    destruct (fails e (S (w_tick w))); simpl in Hrun; by simplify_eq.
  - unfold store_call in Hrun.
    destruct (fails e (S (w_tick w))); simpl in Hrun; by simplify_eq.
Qed.

Lemma run_query_sublist limit cursor c :
  run_query limit cursor c `sublist_of` scan c.
Proof.
  unfold run_query, start_after. etrans; [apply sublist_take|].
  destruct cursor; [apply sublist_filter | done].
Qed.

Lemma scan_ids_NoDup c : NoDup (scan c).*1.
Proof.
  unfold scan. rewrite merge_sort_Permutation. apply NoDup_fst_map_to_list.
Qed.

Lemma StronglySorted_reverse_flip {A} (R : relation A) l :
  StronglySorted R l → StronglySorted (flip R) (reverse l).
Proof.
  induction 1 as [|x l Hs IH Hx].
  - constructor.
  - rewrite reverse_cons. apply StronglySorted_app. split_and!.
    + intros x1 x2 Hx1 Hx2. rewrite elem_of_reverse in Hx1.
      apply list_elem_of_singleton in Hx2 as ->.
      rewrite Forall_forall in Hx. by apply Hx.
    + done.
    + repeat constructor.
Qed.

Lemma scan_order_createdAt a b :
  scan_order a b → (d_createdAt b.2 ≤ d_createdAt a.2)%Z.
Proof.
  unfold scan_order, newer_first.
  rewrite orb_true_iff, andb_true_iff, Z.ltb_lt, Z.eqb_eq. lia.
Qed.

Lemma newer_first_refl a : newer_first a a = true.
Proof.
  unfold newer_first. rewrite Z.eqb_refl, Z.ltb_irrefl. simpl.
  destruct (String.leb_total a.1 a.1); done.
Qed.

(** The documents behind a page: the first [limit] documents of the room
    in the batch, oldest first. *)
Lemma history_page_docs room limit (batch : list (string * chat_doc)) :
  reverse (take limit (room_messages room batch))
  = history_entry
    <$> reverse (take limit
          (filter (fun doc => m_roomId (d_data doc.2) = room) batch)).
Proof.
  unfold room_messages. by rewrite <- fmap_take, fmap_reverse.
Qed.

(** What every page satisfies, whatever the request and the log. *)
Lemma history_page_sound room limit n cursor c :
  let items :=
    reverse (take limit (room_messages room (run_query n cursor c))) in
  (length items ≤ limit)%nat
  ∧ (∀ it, it ∈ items →
       ∃ doc, c !! hi_firebaseId it = Some doc
              ∧ m_roomId (d_data doc) = room
              ∧ hi_doc it
                = {| d_data := with_timestamp (Date (d_createdAt doc))
                                 (d_data doc);
                     d_createdAt := d_createdAt doc |})
  ∧ NoDup (hi_firebaseId <$> items)
  ∧ StronglySorted
      (fun a b => (d_createdAt (hi_doc a) ≤ d_createdAt (hi_doc b))%Z) items.
Proof.
  intros items. subst items. rewrite history_page_docs.
  set (P := fun doc : string * chat_doc => m_roomId (d_data doc.2) = room).
  set (docs := take limit (filter P (run_query n cursor c))).
  assert (docs `sublist_of` scan c) as Hsub.
  { unfold docs. etrans; [apply sublist_take|].
    etrans; [apply sublist_filter|]. apply run_query_sublist. }
  split_and!.
  - rewrite length_fmap, length_reverse. unfold docs.
    rewrite length_take. lia.
  - intros it [x [-> Hx]]%list_elem_of_fmap.
    rewrite elem_of_reverse in Hx. exists x.2. split_and!.
    + apply elem_of_scan. by eapply elem_of_sublist.
    + unfold docs in Hx. apply subseteq_take in Hx.
      by apply list_elem_of_filter in Hx as [? _].
    + done.
  - rewrite <- list_fmap_compose.
    assert (hi_firebaseId ∘ history_entry = fst) as -> by done.
    rewrite fmap_reverse, reverse_Permutation.
    eapply sublist_NoDup; [apply scan_ids_NoDup|]. by apply fmap_sublist.
  - apply (StronglySorted_fmap _ (flip scan_order)).
    + intros x y Hxy. simpl. by apply scan_order_createdAt.
    + apply StronglySorted_reverse_flip.
      by apply (StronglySorted_sublist _ _ (scan c)); [|apply scan_sorted].
Qed.

Lemma emissions_history_page e sid data w w' t to items :
  exec e (messages_history sid data) w = (w', t) →
  (to, MessagesHistory items) ∈ emissions t →
  to = ToSocket sid
  ∧ items
    = reverse (take (or_default (h_limit data) 50)
        (room_messages (or_default (h_roomId data) public_hub)
           (run_query (or_default (h_limit data) 50 * 2)
              (history_cursor data (chatMessages (w_store w)))
              (chatMessages (w_store w))))).
Proof.
  intros Hrun Hin. apply history_outcome in Hrun as (_ & _ & Hout).
  destruct (all_resolved t); rewrite Hout in Hin;
    apply list_elem_of_singleton in Hin; by simplify_eq.
Qed.

(** [X11] A history request leaves the tables and the store as they
    were and emits exactly one event, to the requester alone: the
    messages:history answer when every read resolved, and otherwise the
    "Failed to load message history" error. *)
Theorem history_one_answer e sid data w w' t :
  exec e (messages_history sid data) w = (w', t) →
  w_mem w' = w_mem w ∧ w_store w' = w_store w ∧
  ∃ p, emissions t = [(ToSocket sid, p)]
       ∧ if all_resolved t
         then ∃ items, p = MessagesHistory items
         else p = Error "Failed to load message history".
Proof.
  intros Hrun. apply history_outcome in Hrun as (Hmem & Hst & Hout).
  split; [done|]. split; [done|].
  destruct (all_resolved t); eauto.
Qed.

Lemma history_one_answer_witness :
  let run := exec env_down (messages_history "s1" (first_page public_hub 50))
               world_hello in
  w_mem run.1 = w_mem world_hello ∧ w_store run.1 = w_store world_hello ∧
  ∃ p, emissions run.2 = [(ToSocket "s1", p)]
       ∧ if all_resolved run.2
         then ∃ items, p = MessagesHistory items
         else p = Error "Failed to load message history".
Proof.
  intros run.
  exact (history_one_answer env_down "s1" (first_page public_hub 50)
           world_hello run.1 run.2 eq_refl).
Defined.

(** [X12] Every messages:history answer, with or without cursor, holds at
    most [limit] items (50 when the request gives none); each item is a
    document of the log that belongs to the requested room (the public
    room when the request names none), carries the document id as
    [firebaseId] and the creation time as [timestamp]; no document occurs
    twice; and the items are ordered by creation time, oldest first. *)
Theorem history_answer_sound e sid data w w' t to items :
  exec e (messages_history sid data) w = (w', t) →
  (to, MessagesHistory items) ∈ emissions t →
  (length items ≤ or_default (h_limit data) 50)%nat
  ∧ (∀ it, it ∈ items →
       ∃ doc, chatMessages (w_store w) !! hi_firebaseId it = Some doc
              ∧ m_roomId (d_data doc) = or_default (h_roomId data) public_hub
              ∧ hi_doc it
                = {| d_data := with_timestamp (Date (d_createdAt doc))
                                 (d_data doc);
                     d_createdAt := d_createdAt doc |})
  ∧ NoDup (hi_firebaseId <$> items)
  ∧ StronglySorted
      (fun a b => (d_createdAt (hi_doc a) ≤ d_createdAt (hi_doc b))%Z) items.
Proof.
  intros Hrun Hin.
  destruct (emissions_history_page _ _ _ _ _ _ _ _ Hrun Hin) as [_ ->].
  apply history_page_sound.
Qed.

Lemma history_answer_sound_witness :
  let run := exec env_ok (messages_history "s1" (first_page public_hub 50))
               world_200_recent in
  let items := history_entry <$> [log_entry_recent 197; log_entry_recent 198;
                                  log_entry_recent 199] in
  (ToSocket "s1", MessagesHistory items) ∈ emissions run.2
  ∧ (length items ≤ 50)%nat
  ∧ (∀ it, it ∈ items →
       ∃ doc, log_200_recent !! hi_firebaseId it = Some doc
              ∧ m_roomId (d_data doc) = public_hub
              ∧ hi_doc it
                = {| d_data := with_timestamp (Date (d_createdAt doc))
                                 (d_data doc);
                     d_createdAt := d_createdAt doc |})
  ∧ NoDup (hi_firebaseId <$> items)
  ∧ StronglySorted
      (fun a b => (d_createdAt (hi_doc a) ≤ d_createdAt (hi_doc b))%Z) items.
Proof.
  intros run items.
  assert ((ToSocket "s1", MessagesHistory items) ∈ emissions run.2) as Hin.
  { assert (emissions run.2 = [(ToSocket "s1", MessagesHistory items)])
      as -> by (by vm_compute).
    by apply list_elem_of_singleton. }
  split; [exact Hin|].
  exact (history_answer_sound env_ok "s1" (first_page public_hub 50)
           world_200_recent run.1 run.2 _ _ eq_refl Hin).
Defined.

(** [X13] Pagination: when the cursor names a document of the log, no
    item of the answer is that document, and none was created after
    it. *)
Theorem history_after_cursor e sid data w w' t to items id cursor :
  h_lastMessageId data = Some id →
  id ≠ "" →
  chatMessages (w_store w) !! id = Some cursor →
  exec e (messages_history sid data) w = (w', t) →
  (to, MessagesHistory items) ∈ emissions t →
  ∀ it, it ∈ items →
    hi_firebaseId it ≠ id
    ∧ (d_createdAt (hi_doc it) ≤ d_createdAt cursor)%Z.
Proof.
  intros Hid Hne Hcursor Hrun Hin it Hit.
  destruct (emissions_history_page _ _ _ _ _ _ _ _ Hrun Hin) as [_ ->].
  unfold history_cursor in Hit. rewrite Hid, decide_False in Hit by done.
  rewrite Hcursor in Hit. simpl in Hit.
  rewrite history_page_docs in Hit.
  apply list_elem_of_fmap in Hit as [x [-> Hx]].
  rewrite elem_of_reverse in Hx.
  apply subseteq_take, list_elem_of_filter in Hx as [_ Hx].
  unfold run_query, start_after in Hx.
  apply subseteq_take, list_elem_of_filter in Hx as [Hafter Hx].
  apply elem_of_scan in Hx. simpl. split.
  - intros Heq. destruct x as [i d]. simpl in *. subst i.
    rewrite Hcursor in Hx. injection Hx as <-.
    by rewrite newer_first_refl in Hafter.
  - unfold newer_first in Hafter. apply orb_false_iff in Hafter as [Hlt _].
    apply Z.ltb_ge in Hlt. done.
Qed.

Lemma history_after_cursor_witness :
  let run := exec env_ok (messages_history "s1" page_before_199)
               world_200_recent in
  let items := history_entry <$> [log_entry_recent 197;
                                  log_entry_recent 198] in
  h_lastMessageId page_before_199 = Some "m199" ∧
  "m199" ≠ "" ∧
  log_200_recent !! "m199" = Some (log_entry_recent 199).2 ∧
  (ToSocket "s1", MessagesHistory items) ∈ emissions run.2 ∧
  ∀ it, it ∈ items →
    hi_firebaseId it ≠ "m199" ∧ (d_createdAt (hi_doc it) ≤ 199)%Z.
Proof.
  intros run items.
  assert (log_200_recent !! "m199" = Some (log_entry_recent 199).2)
    as Hcursor by (by vm_compute).
  assert ((ToSocket "s1", MessagesHistory items) ∈ emissions run.2) as Hin.
  { assert (emissions run.2 = [(ToSocket "s1", MessagesHistory items)])
      as -> by (by vm_compute).
    by apply list_elem_of_singleton. }
  split; [reflexivity|]. split; [discriminate|]. split; [exact Hcursor|].
  split; [exact Hin|].
  exact (history_after_cursor env_ok "s1" page_before_199 world_200_recent
           run.1 run.2 _ _ "m199" _ eq_refl ltac:(discriminate) Hcursor
           eq_refl Hin).
Defined.

Lemma exec_tableless e p w m' :
  tableless p →
  exec e p {| w_mem := m'; w_store := w_store w; w_tick := w_tick w |}
  = ({| w_mem := m'; w_store := w_store (exec e p w).1;
        w_tick := w_tick (exec e p w).1 |},
     (exec e p w).2).
Proof.
  revert w. induction p as [|k IH|m0 k IH|x k IH|A q k IH|A r k IH];
    intros w Hp; simpl in *; try done.
  - rewrite IH by done. by destruct (exec e k w).
  - by rewrite <- IH.
  - destruct (store_call e (w_tick w) r (w_store w)) as [res st].
    specialize (IH res {| w_mem := w_mem w; w_store := st;
                          w_tick := S (w_tick w) |} (Hp res)).
    simpl in IH. rewrite IH. clear IH.
    by destruct (exec e (k res) {| w_mem := w_mem w; w_store := st;
                                   w_tick := S (w_tick w) |}).
Qed.

Lemma messages_history_tableless sid data :
  tableless (messages_history sid data).
Proof.
  unfold messages_history.
  destruct (h_lastMessageId data) as [id|]; [|by intros []].
  destruct (decide (id = "")); [by intros []|].
  intros [[doc|]|]; simpl; try done; by intros [].
Qed.

(** [X14] The history handler has no authentication guard: the request
    is served in the same way, with the same run and the same store,
    whatever the tables hold, in particular for a socket that never
    joined. *)
Theorem history_needs_no_session e sid data w m' :
  exec e (messages_history sid data)
    {| w_mem := m'; w_store := w_store w; w_tick := w_tick w |}
  = ({| w_mem := m';
        w_store := w_store (exec e (messages_history sid data) w).1;
        w_tick := w_tick (exec e (messages_history sid data) w).1 |},
     (exec e (messages_history sid data) w).2).
Proof. apply exec_tableless, messages_history_tableless. Qed.

(** A document created after every document of the log is scanned
    first. *)
Lemma scan_insert_newest c id d :
  c !! id = None →
  (∀ i d', c !! i = Some d' → (d_createdAt d' < d_createdAt d)%Z) →
  ∃ rest, scan (<[id := d]> c) = (id, d) :: rest.
Proof.
  intros Hfresh Hnewest.
  assert ((id, d) ∈ scan (<[id := d]> c)) as Hin
    by (apply elem_of_scan; simpl; apply lookup_insert_eq).
  pose proof (scan_sorted (<[id := d]> c)) as Hsorted.
  destruct (scan (<[id := d]> c)) as [|x rest] eqn:Hscan.
  { by apply elem_of_nil in Hin. }
  exists rest. f_equal.
  apply elem_of_cons in Hin as [Hhead|Hrest]; [done|].
  apply StronglySorted_cons in Hsorted as [Hx _].
  rewrite Forall_forall in Hx. apply Hx, scan_order_createdAt in Hrest.
  simpl in Hrest.
  assert (x ∈ scan (<[id := d]> c)) as Hxin by (rewrite Hscan; left).
  apply elem_of_scan in Hxin. destruct x as [i dx]. simpl in *.
  destruct (decide (i = id)) as [->|Hne].
  - rewrite lookup_insert_eq in Hxin. by injection Hxin as <-.
  - rewrite lookup_insert_ne in Hxin by done.
    apply Hnewest in Hxin. lia.
Qed.

(** [X15] Send, then read back: after a message:send whose write
    resolved, with a creation time later than that of every document
    already in the log, a history request for the message's room, without
    cursor and with a limit of at least one, ends with the message just
    sent: the newest item of the answer carries its content, its author
    and the document id that message:new announced. *)
Theorem send_then_history e sid sid' messageData limit w user w1 t1 w2 t2 :
  let n := w_tick w in
  let message := new_message user messageData (clock e n) (random e (S n)) in
  let firebaseId := autoId e (S (S (S n))) in
  map_get sid (activeUsers (w_mem w)) = Some user →
  fails e (S (S (S n))) = false →
  chatMessages (w_store w) !! firebaseId = None →
  (∀ i d, chatMessages (w_store w) !! i = Some d →
          (d_createdAt d < clock e (S (S n)))%Z) →
  (1 ≤ limit)%nat →
  fails e (5 + n) = false →
  exec e (message_send sid messageData) w = (w1, t1) →
  exec e (messages_history sid' (first_page (m_roomId message) limit)) w1
  = (w2, t2) →
  ∃ items,
    emissions t2 = [(ToSocket sid', MessagesHistory items)]
    ∧ last items
      = Some {| hi_doc :=
                  {| d_data := with_timestamp (Date (clock e (S (S n))))
                                 message;
                     d_createdAt := clock e (S (S n)) |};
                hi_firebaseId := firebaseId |}.
Proof.
  intros n message firebaseId Huser Hadd Hfresh Hnewest Hlimit Hquery
    Hsend Hhist.
  rewrite (send_resolved_run e sid messageData w user) in Hsend by done.
  injection Hsend as <- <-.
  rewrite history_first_page_run in Hhist by done.
  injection Hhist as <- <-. simpl. eexists. split; [reflexivity|].
  fold n message firebaseId. unfold scan_window.
  set (d := {| d_data := with_timestamp (Date (serverTime e (S (S (S n)))))
                           message;
               d_createdAt := clock e (S (S n)) |}).
  destruct (scan_insert_newest (chatMessages (w_store w)) firebaseId d)
    as [rest ->]; [done|done|].
  destruct limit as [|limit]; [lia|]. simpl.
  unfold room_messages. rewrite filter_cons_True by done.
  simpl. rewrite reverse_cons. by rewrite last_snoc.
Qed.

Lemma send_then_history_witness :
  let sent := exec env_ok (message_send "s1" hello) world_alice in
  let read := exec env_ok (messages_history "s2" (first_page public_hub 50))
                sent.1 in
  map_get "s1" (activeUsers (w_mem world_alice))
  = Some (new_session "s1" alice 1000) ∧
  chatMessages (w_store world_alice) !! "doc5" = None ∧
  (∀ i d, chatMessages (w_store world_alice) !! i = Some d →
          (d_createdAt d < 1004)%Z) ∧
  ∃ items,
    emissions read.2 = [(ToSocket "s2", MessagesHistory items)]
    ∧ last items
      = Some {| hi_doc :=
                  {| d_data := with_timestamp (Date 1004)
                                 (new_message (new_session "s1" alice 1000)
                                    hello 1002 "k3x9q2");
                     d_createdAt := 1004 |};
                hi_firebaseId := "doc5" |}.
Proof.
  intros sent read.
  assert (chatMessages (w_store world_alice) = ∅) as Hempty
    by (by vm_compute).
  assert (chatMessages (w_store world_alice) !! "doc5" = None) as Hfresh
    by (by rewrite Hempty).
  assert (∀ i d, chatMessages (w_store world_alice) !! i = Some d →
                 (d_createdAt d < 1004)%Z) as Hnewest.
  { intros i d. rewrite Hempty, lookup_empty. discriminate. }
  split; [reflexivity|]. split; [exact Hfresh|]. split; [exact Hnewest|].
  exact (send_then_history env_ok "s1" "s2" hello 50 world_alice
           (new_session "s1" alice 1000) sent.1 sent.2 read.1 read.2
           eq_refl eq_refl Hfresh Hnewest ltac:(lia) eq_refl eq_refl eq_refl).
Defined.

(** *** disconnect and user:join *)

Section JsMapRoundTrip.
Context {V : Type}.
Implicit Types (m : list (string * V)) (k : string) (v : V).

Lemma map_set_fresh m k v : map_get k m = None → map_set k v m = m ++ [(k, v)].
Proof.
  induction m as [|[k' v'] m IH]; simpl; [done|].
  destruct (decide (k' = k)); [done|]. intros Hm. by rewrite IH.
Qed.


Lemma map_set_length_present m k v :
  is_Some (map_get k m) → length (map_set k v m) = length m.
Proof.
  induction m as [|[k' v'] m IH]; simpl; [by intros [? ?]|].
  destruct (decide (k' = k)); simpl; [done|]. intros Hm. by rewrite IH.
Qed.

Lemma map_get_values m k v : map_get k m = Some v → v ∈ map_values m.
Proof.
  unfold map_values. induction m as [|[k' v'] m IH]; simpl; [done|].
  destruct (decide (k' = k)).
  - intros [= ->]. left.
  - intros Hm. right. auto.
Qed.
End JsMapRoundTrip.

Lemma emissions_for_each (rooms : list string) (to : string → target) p :
  emissions (Did ∘ (fun room => Emit (to room) p) <$> rooms)
  = (fun room => (to room, p)) <$> rooms.
Proof.
  unfold emissions. induction rooms as [|r rooms IH]; [done|].
  cbn. by f_equal.
Qed.

(** The run of a disconnect whose presence update resolves. *)
Lemma disconnect_resolved_run e sid w user p :
  map_get sid (activeUsers (w_mem w)) = Some user →
  fails e (w_tick w) = false →
  chatPresence (w_store w) !! s_userId user = Some p →
  let rooms := or_default (map_get sid (userRooms (w_mem w))) [] in
  exec e (disconnect sid) w
  = ({| w_mem := {| activeUsers := map_delete sid (activeUsers (w_mem w));
                    userRooms := map_delete sid (userRooms (w_mem w)) |};
        w_store :=
          {| chatPresence :=
               <[s_userId user :=
                   {| p_isOnline := false;
                      p_lastSeen := Date (serverTime e (w_tick w));
                      p_socketId := p_socketId p;
                      p_userName := p_userName p;
                      p_userEmail := p_userEmail p;
                      p_avatar := p_avatar p |}]> (chatPresence (w_store w));
             chatMessages := chatMessages (w_store w) |};
        w_tick := S (w_tick w) |},
     Called (PresenceUpdate (s_userId user) false ServerTimestamp) true
     :: (Did ∘ (fun room => Emit (ToRoomExcept room sid) (left_notice user))
           <$> rooms)
     ++ [Did (Console (LogDisconnected (s_userName user)))]).
Proof.
  intros Huser Hok Hp rooms. unfold disconnect. simpl. rewrite Huser.
  simpl. rewrite store_call_ok by done. simpl. rewrite Hp. simpl.
  by rewrite exec_for_each.
Qed.

(** [X16] A disconnect of a socket without session does nothing: no
    store call, no event, no change. *)
Theorem disconnect_without_session e sid w :
  map_get sid (activeUsers (w_mem w)) = None →
  exec e (disconnect sid) w = (w, []).
Proof.
  intros Hno. unfold disconnect. simpl. by rewrite Hno.
Qed.

Lemma disconnect_without_session_witness :
  map_get "s2" (activeUsers (w_mem world_alice)) = None ∧
  exec env_ok (disconnect "s2") world_alice = (world_alice, []).
Proof.
  split; [reflexivity|].
  apply (disconnect_without_session env_ok "s2" world_alice). reflexivity.
Defined.

(** [X17] A disconnect whose presence update resolves removes the socket
    from both tables and leaves every other socket's entries alone; it
    notifies, with user:left, the other members of each room the socket
    was in and nobody else; and the presence record of the user is
    marked offline, stamped by the store, its other fields kept. *)
Theorem disconnect_cleans_up e sid w user p w' t :
  tables_ok (w_mem w) →
  map_get sid (activeUsers (w_mem w)) = Some user →
  fails e (w_tick w) = false →
  chatPresence (w_store w) !! s_userId user = Some p →
  exec e (disconnect sid) w = (w', t) →
  map_get sid (activeUsers (w_mem w')) = None
  ∧ map_get sid (userRooms (w_mem w')) = None
  ∧ (∀ sid', sid' ≠ sid →
       map_get sid' (activeUsers (w_mem w'))
       = map_get sid' (activeUsers (w_mem w))
       ∧ map_get sid' (userRooms (w_mem w'))
         = map_get sid' (userRooms (w_mem w)))
  ∧ emissions t
    = (fun room => (ToRoomExcept room sid, left_notice user))
      <$> or_default (map_get sid (userRooms (w_mem w))) []
  ∧ chatPresence (w_store w') !! s_userId user
    = Some {| p_isOnline := false;
              p_lastSeen := Date (serverTime e (w_tick w));
              p_socketId := p_socketId p;
              p_userName := p_userName p;
              p_userEmail := p_userEmail p;
              p_avatar := p_avatar p |}.
Proof.
  intros (Hau & Hur & _) Huser Hok Hp Hrun.
  rewrite (disconnect_resolved_run e sid w user p) in Hrun by done.
  injection Hrun as <- <-. simpl. split_and!.
  - by apply map_get_delete_eq.
  - by apply map_get_delete_eq.
  - intros sid' Hne. by rewrite !map_get_delete_ne.
  - unfold emissions. simpl. rewrite omap_app. simpl.
    rewrite app_nil_r. apply emissions_for_each.
  - apply lookup_insert_eq.
Qed.

Lemma world_alice_tables_ok : tables_ok (w_mem world_alice).
Proof.
  apply (reachable_tables_ok (w_mem world_alice, [])).
  exact (exec_all_reachable env_ok [("s1", UserJoin alice)]).
Qed.

Lemma disconnect_cleans_up_witness :
  let run := exec env_ok (disconnect "s1") world_alice in
  let p := {| p_isOnline := true; p_lastSeen := Date 2001;
              p_socketId := "s1"; p_userName := "Alice";
              p_userEmail := Some "alice@example.org"; p_avatar := None |} in
  tables_ok (w_mem world_alice) ∧
  map_get "s1" (activeUsers (w_mem world_alice))
  = Some (new_session "s1" alice 1000) ∧
  chatPresence (w_store world_alice) !! "u-alice" = Some p ∧
  map_get "s1" (activeUsers (w_mem run.1)) = None
  ∧ map_get "s1" (userRooms (w_mem run.1)) = None
  ∧ (∀ sid', sid' ≠ "s1" →
       map_get sid' (activeUsers (w_mem run.1))
       = map_get sid' (activeUsers (w_mem world_alice))
       ∧ map_get sid' (userRooms (w_mem run.1))
         = map_get sid' (userRooms (w_mem world_alice)))
  ∧ emissions run.2
    = [(ToRoomExcept public_hub "s1",
        left_notice (new_session "s1" alice 1000))]
  ∧ chatPresence (w_store run.1) !! "u-alice"
    = Some {| p_isOnline := false; p_lastSeen := Date 2002;
              p_socketId := "s1"; p_userName := "Alice";
              p_userEmail := Some "alice@example.org"; p_avatar := None |}.
Proof.
  intros run p.
  assert (chatPresence (w_store world_alice) !! "u-alice" = Some p) as Hp
    by (by vm_compute).
  split; [exact world_alice_tables_ok|]. split; [reflexivity|].
  split; [exact Hp|].
  exact (disconnect_cleans_up env_ok "s1" world_alice
           (new_session "s1" alice 1000) p run.1 run.2
           world_alice_tables_ok eq_refl eq_refl Hp eq_refl).
Defined.

(** [X18] When the presence update of a disconnect is rejected, the
    handler stops before its clean-up: nothing is emitted, and the
    session and the room membership of the socket stay in the tables,
    so that [GET /api/chat/users] goes on listing the user. *)
Theorem disconnect_failure_keeps_session e sid w user w' t :
  map_get sid (activeUsers (w_mem w)) = Some user →
  is_ok (store_call e (w_tick w)
           (PresenceUpdate (s_userId user) false ServerTimestamp)
           (w_store w)).1 = false →
  exec e (disconnect sid) w = (w', t) →
  w_mem w' = w_mem w ∧ w_store w' = w_store w ∧ emissions t = []
  ∧ ∃ info, info ∈ r_users (api_chat_users (w_mem w'))
            ∧ u_userId info = s_userId user
            ∧ u_userName info = s_userName user.
Proof.
  intros Huser Hko Hrun. unfold disconnect in Hrun. simpl in Hrun.
  rewrite Huser in Hrun. simpl in Hrun.
  assert (∀ st, is_ok (store_call e (w_tick w)
                         (PresenceUpdate (s_userId user) false ServerTimestamp)
                         (w_store w)).1 = false →
                store_call e (w_tick w)
                  (PresenceUpdate (s_userId user) false ServerTimestamp)
                  (w_store w) = (Err, st) → st = w_store w) as Hsame.
  { intros st _. unfold store_call.
    destruct (fails e (w_tick w)); simpl; [by intros [= <-]|].
    destruct (chatPresence (w_store w) !! s_userId user); [done|].
    by intros [= <-]. }
  destruct (store_call e _ _ _) as [[[]|] st] eqn:Hcall; simpl in Hko;
    [done|].
  specialize (Hsame st eq_refl eq_refl). subst st.
  simpl in Hrun. injection Hrun as <- <-. simpl.
  split; [by destruct w|]. split; [done|]. split; [done|].
  eexists. split.
  - unfold api_chat_users. simpl. apply list_elem_of_fmap.
    eexists. split; [reflexivity|]. by eapply map_get_values.
  - done.
Qed.

Lemma disconnect_failure_keeps_session_witness :
  let run := exec env_down (disconnect "s1") world_alice in
  map_get "s1" (activeUsers (w_mem world_alice))
  = Some (new_session "s1" alice 1000) ∧
  is_ok (store_call env_down (w_tick world_alice)
           (PresenceUpdate "u-alice" false ServerTimestamp)
           (w_store world_alice)).1 = false ∧
  w_mem run.1 = w_mem world_alice ∧ w_store run.1 = w_store world_alice
  ∧ emissions run.2 = []
  ∧ ∃ info, info ∈ r_users (api_chat_users (w_mem run.1))
            ∧ u_userId info = "u-alice"
            ∧ u_userName info = "Alice".
Proof.
  intros run. split; [reflexivity|]. split; [reflexivity|].
  exact (disconnect_failure_keeps_session env_down "s1" world_alice
           (new_session "s1" alice 1000) run.1 run.2
           eq_refl eq_refl eq_refl).
Defined.

(** The tables after the synchronous part of a user:join. *)
Lemma join_tables e sid userData w w' t :
  exec e (user_join sid userData) w = (w', t) →
  w_mem w'
  = {| activeUsers :=
         map_set sid (new_session sid userData (clock e (w_tick w)))
           (activeUsers (w_mem w));
       userRooms := map_set sid [public_hub] (userRooms (w_mem w)) |}.
Proof.
  unfold user_join. simpl.
  destruct (store_call e _ _ _) as [[[]|] st]; simpl; by intros [= <- <-].
Qed.




(** [X20] What [GET /api/chat/users] shows after a user:join, whether or
    not the presence write resolved.  On a socket that had no session,
    the user is appended to the list and the count grows by one; on a
    socket that already had one, the count is unchanged.  In both cases
    the joiner is listed. *)
Theorem join_listed_by_endpoint e sid userData w w' t :
  exec e (user_join sid userData) w = (w', t) →
  let info := {| u_userId := j_userId userData;
                 u_userName := j_userName userData;
                 u_userEmail := j_userEmail userData;
                 u_avatar := j_avatar userData;
                 u_joinedAt := clock e (w_tick w) |} in
  info ∈ r_users (api_chat_users (w_mem w'))
  ∧ match map_get sid (activeUsers (w_mem w)) with
    | None =>
        r_users (api_chat_users (w_mem w'))
        = r_users (api_chat_users (w_mem w)) ++ [info]
        ∧ r_count (api_chat_users (w_mem w'))
          = S (r_count (api_chat_users (w_mem w)))
    | Some _ =>
        r_count (api_chat_users (w_mem w'))
        = r_count (api_chat_users (w_mem w))
    end.
Proof.
  intros Hrun info. apply join_tables in Hrun. rewrite Hrun.
  unfold api_chat_users, map_values. simpl. split.
  - apply list_elem_of_fmap.
    exists (new_session sid userData (clock e (w_tick w))).
    split; [done|]. eapply (map_get_values _ sid), map_get_set_eq.
  - destruct (map_get sid (activeUsers (w_mem w))) eqn:Hsid.
    + rewrite !length_fmap. by apply map_set_length_present.
    + rewrite map_set_fresh by done. rewrite !fmap_app. simpl.
      split; [done|]. rewrite !length_app, !length_fmap. simpl. lia.
Qed.

Lemma join_listed_by_endpoint_witness :
  let run := exec env_down (user_join "s2" bob) world_alice in
  let info := {| u_userId := "u-bob"; u_userName := "Bob";
                 u_userEmail := None; u_avatar := Some "bob.png";
                 u_joinedAt := 1002 |} in
  info ∈ r_users (api_chat_users (w_mem run.1))
  ∧ r_users (api_chat_users (w_mem run.1))
    = r_users (api_chat_users (w_mem world_alice)) ++ [info]
  ∧ r_count (api_chat_users (w_mem run.1)) = 2%nat.
Proof.
  intros run info.
  exact (join_listed_by_endpoint env_down "s2" bob world_alice run.1 run.2
           eq_refl).
Defined.

(** [X21] Presence does not count sessions.  When a user has sessions on
    two sockets and one of them disconnects (its presence update
    resolving), the presence record of the user says offline although
    the other socket still has its session. *)
Theorem disconnect_marks_offline_despite_other_session
    e sid sid' w user user' p0 w' t :
  sid ≠ sid' →
  map_get sid (activeUsers (w_mem w)) = Some user →
  map_get sid' (activeUsers (w_mem w)) = Some user' →
  s_userId user' = s_userId user →
  fails e (w_tick w) = false →
  chatPresence (w_store w) !! s_userId user = Some p0 →
  exec e (disconnect sid) w = (w', t) →
  map_get sid' (activeUsers (w_mem w')) = Some user'
  ∧ ∃ p, chatPresence (w_store w') !! s_userId user' = Some p
         ∧ p_isOnline p = false.
Proof.
  intros Hne Huser Huser' Hsame Hcall Hp Hrun.
  rewrite (disconnect_resolved_run e sid w user p0) in Hrun by done.
  injection Hrun as <- <-. simpl. split.
  - by rewrite map_get_delete_ne.
  - rewrite Hsame. eexists. split; [apply lookup_insert_eq|done].
Qed.

Lemma disconnect_marks_offline_despite_other_session_witness :
  let run := exec env_ok (disconnect "s1") world_two_devices in
  let p0 := {| p_isOnline := true; p_lastSeen := Date 2003;
               p_socketId := "s2"; p_userName := "Alice";
               p_userEmail := Some "alice@example.org"; p_avatar := None |} in
  "s1" ≠ "s2" ∧
  map_get "s1" (activeUsers (w_mem world_two_devices))
  = Some (new_session "s1" alice 1000) ∧
  map_get "s2" (activeUsers (w_mem world_two_devices))
  = Some (new_session "s2" alice 1002) ∧
  chatPresence (w_store world_two_devices) !! "u-alice" = Some p0 ∧
  map_get "s2" (activeUsers (w_mem run.1))
  = Some (new_session "s2" alice 1002)
  ∧ ∃ p, chatPresence (w_store run.1) !! "u-alice" = Some p
         ∧ p_isOnline p = false.
Proof.
  intros run p0.
  assert (chatPresence (w_store world_two_devices) !! "u-alice" = Some p0)
    as Hp by (by vm_compute).
  split; [discriminate|].
  split; [reflexivity|]. split; [reflexivity|]. split; [exact Hp|].
  exact (disconnect_marks_offline_despite_other_session env_ok "s1" "s2"
           world_two_devices (new_session "s1" alice 1000)
           (new_session "s2" alice 1002) p0 run.1 run.2
           ltac:(discriminate)
           eq_refl eq_refl eq_refl eq_refl Hp eq_refl).
Defined.



(** *** The tables mirror each other *)

Section Invariants.
Variable I : mem → Prop.
Hypothesis I_join : ∀ m sid userData joinedAt,
  I m →
  I {| activeUsers :=
         map_set sid (new_session sid userData joinedAt) (activeUsers m);
       userRooms := map_set sid [public_hub] (userRooms m) |}.
Hypothesis I_leave : ∀ m sid,
  I m →
  I {| activeUsers := map_delete sid (activeUsers m);
       userRooms := map_delete sid (userRooms m) |}.

Lemma keeps_inv_for_each rooms f k m :
  keeps_inv I k m → keeps_inv I (for_each rooms f k) m.
Proof. induction rooms; simpl; auto. Qed.

(** The handlers change the tables in two ways only: the paired
    insertion of user:join and the paired removal of disconnect. *)
Lemma handler_keeps_inv sid ev m : I m → keeps_inv I (handler sid ev) m.
Proof.
  intros Hm. destruct ev as [d|d|d|d|d| |d]; simpl.
  - intros joinedAt. split; [by apply I_join|].
    intros [[]|] m' Hm'; simpl; done.
  - unfold message_send. simpl.
    destruct (map_get sid (activeUsers m)); simpl; [|done].
    intros now rnd createdAt. split; [done|].
    intros [firebaseId|] m' Hm'; simpl; done.
  - unfold typing_start. simpl.
    by destruct (map_get sid (activeUsers m)).
  - unfold typing_stop. simpl.
    by destruct (map_get sid (activeUsers m)).
  - unfold message_like. simpl.
    destruct (map_get sid (activeUsers m)); simpl; [|done].
    split; [done|]. intros [[doc|]|] m' Hm'; simpl; try done.
    split; [done|]. intros [[]|] m'' Hm''; simpl; done.
  - unfold disconnect. simpl.
    destruct (map_get sid (activeUsers m)); simpl; [|done].
    split; [done|]. intros [[]|] m' Hm'; simpl; [|done].
    apply keeps_inv_for_each. simpl. by apply I_leave.
  - unfold messages_history.
    destruct (h_lastMessageId d) as [lastMessageId|].
    2:{ simpl. split; [done|]. intros [snapshot|] m' Hm'; simpl; done. }
    destruct (decide (lastMessageId = "")).
    { simpl. split; [done|]. intros [snapshot|] m' Hm'; simpl; done. }
    simpl. split; [done|].
    intros [[doc|]|] m' Hm'; simpl; try done; split; try done;
      intros [snapshot|] m'' Hm''; simpl; done.
Qed.

Lemma keeps_inv_sync e p m n m' n' o rest :
  keeps_inv I p m → sync e p m n = (m', n', o, rest) →
  I m' ∧ resumable_inv I rest.
Proof.
  revert m n m' n' o rest.
  induction p as [|k IH|m0 k IH|x k IH|A q k IH|A r k IH];
    intros m n m' n' o rest Hkeeps Hsync; simpl in *.
  - by simplify_eq.
  - eauto.
  - eauto.
  - destruct (sync e k m n) as [[[m1 n1] o1] r1] eqn:Hk. simplify_eq. eauto.
  - eauto.
  - simplify_eq. simpl. tauto.
Qed.

Lemma park_resumable_inv rest pool :
  resumable_inv I rest → Forall (resumable_inv I) pool →
  Forall (resumable_inv I) (park rest pool).
Proof. intros Hrest Hpool. destruct rest; simpl; auto. Qed.

Lemma istep_inv c c' :
  istep c c' →
  I c.1 ∧ Forall (resumable_inv I) c.2 →
  I c'.1 ∧ Forall (resumable_inv I) c'.2.
Proof.
  destruct 1 as [e n sid ev m pool m' n' o rest Hsync
                |e n A r k res m pool1 pool2 m' n' o rest Hsync];
    simpl; intros [Hm Hpool].
  - apply keeps_inv_sync in Hsync as [? ?]; [|by apply handler_keeps_inv].
    split; [done|]. by apply park_resumable_inv.
  - apply Forall_app in Hpool as [Hpool1 Hpool2].
    apply Forall_cons in Hpool2 as [Hk Hpool2]. simpl in Hk.
    apply keeps_inv_sync in Hsync as [? ?]; [|by apply Hk].
    split; [done|]. apply Forall_app. split; [done|].
    by apply park_resumable_inv.
Qed.

Lemma reachable_inv c : I mem_init → reachable c → I c.1.
Proof.
  intros Hinit. unfold reachable. revert c.
  apply (rtc_ind_r (fun c => I c.1 ∧ Forall (resumable_inv I) c.2)).
  - split; [done | constructor].
  - intros c c' _ Hstep IH. by eapply istep_inv.
Qed.
End Invariants.

Section JsMapMirror.
Context {V W : Type}.
Implicit Types (m : list (string * V)).

Lemma map_set_keys_eq m (m' : list (string * W)) k (v : V) (v' : W) :
  m.*1 = m'.*1 → (map_set k v m).*1 = (map_set k v' m').*1.
Proof.
  revert m'. induction m as [|[k1 v1] m IH]; intros [|[k2 v2] m'];
    simpl; try done.
  intros [= -> Hkeys]. destruct (decide (k2 = k)); csimpl.
  - by f_equal.
  - f_equal. by apply IH.
Qed.

Lemma map_delete_keys_eq m (m' : list (string * W)) k :
  m.*1 = m'.*1 → (map_delete k m).*1 = (map_delete k m').*1.
Proof.
  revert m'. induction m as [|[k1 v1] m IH]; intros [|[k2 v2] m'];
    simpl; try done.
  intros [= -> Hkeys]. destruct (decide (k2 = k)); csimpl.
  - done.
  - f_equal. by apply IH.
Qed.

Lemma elem_of_map_set m k (v : V) x :
  x ∈ map_set k v m → x = (k, v) ∨ x ∈ m.
Proof.
  induction m as [|[k1 v1] m IH]; simpl.
  - intros ->%list_elem_of_singleton. by left.
  - destruct (decide (k1 = k)); rewrite !elem_of_cons.
    + intros [->|?]; auto.
    + intros [->|?]; [auto|]. destruct IH; auto.
Qed.

Lemma elem_of_map_delete m k x : x ∈ map_delete k m → x ∈ m.
Proof.
  induction m as [|[k1 v1] m IH]; simpl; [done|].
  destruct (decide (k1 = k)); rewrite !elem_of_cons; [auto|].
  intros [->|?]; auto.
Qed.

Lemma map_get_elem_of m k (v : V) : map_get k m = Some v → (k, v) ∈ m.
Proof.
  induction m as [|[k1 v1] m IH]; simpl; [done|].
  destruct (decide (k1 = k)) as [->|].
  - intros [= ->]. left.
  - intros Hm. right. auto.
Qed.

Lemma map_has_keys m k : map_has k m ↔ k ∈ m.*1.
Proof.
  unfold map_has. rewrite <- not_eq_None_Some, map_get_None.
  destruct (decide (k ∈ m.*1)); tauto.
Qed.
End JsMapMirror.

Lemma tables_exact_init : tables_exact mem_init.
Proof.
  split_and!; simpl; [apply NoDup_nil_2 | done | |];
    intros ?? Hin; by apply elem_of_nil in Hin.
Qed.

Lemma tables_exact_join m sid userData joinedAt :
  tables_exact m →
  tables_exact
    {| activeUsers :=
         map_set sid (new_session sid userData joinedAt) (activeUsers m);
       userRooms := map_set sid [public_hub] (userRooms m) |}.
Proof.
  intros (Hnd & Hkeys & Hrooms & Hsock). split_and!; simpl.
  - by apply map_set_NoDup.
  - by apply map_set_keys_eq.
  - intros k rooms [[= -> ->]|Hin]%elem_of_map_set; [done|]. eauto.
  - intros k s [[= -> ->]|Hin]%elem_of_map_set; [done|]. eauto.
Qed.

Lemma tables_exact_leave m sid :
  tables_exact m →
  tables_exact {| activeUsers := map_delete sid (activeUsers m);
                  userRooms := map_delete sid (userRooms m) |}.
Proof.
  intros (Hnd & Hkeys & Hrooms & Hsock). split_and!; simpl.
  - by apply map_delete_NoDup.
  - by apply map_delete_keys_eq.
  - intros k rooms Hin%elem_of_map_delete. eauto.
  - intros k s Hin%elem_of_map_delete. eauto.
Qed.

Lemma reachable_tables_exact c : reachable c → tables_exact c.1.
Proof.
  apply (reachable_inv tables_exact).
  - intros. by apply tables_exact_join.
  - intros. by apply tables_exact_leave.
  - apply tables_exact_init.
Qed.

(** [X23] In every state reachable by starting and resuming handlers in
    any order, with any answers of the store, the two tables mirror each
    other: a socket has a session exactly when it has a room membership
    (this adds the converse of the membership invariant), no socket
    occurs twice, every membership is the public room alone, and every
    session records the socket under which it is stored. *)
Theorem tables_mirror_each_other m pool :
  reachable (m, pool) →
  (∀ sid, map_has sid (activeUsers m) ↔ map_has sid (userRooms m))
  ∧ NoDup (activeUsers m).*1
  ∧ (∀ sid rooms, map_get sid (userRooms m) = Some rooms →
                  rooms = [public_hub])
  ∧ (∀ sid s, map_get sid (activeUsers m) = Some s → s_socketId s = sid).
Proof.
  intros (Hnd & Hkeys & Hrooms & Hsock)%reachable_tables_exact.
  simpl in *. split_and!.
  - intros sid. by rewrite !map_has_keys, Hkeys.
  - done.
  - intros sid rooms Hget%map_get_elem_of. eauto.
  - intros sid s Hget%map_get_elem_of. eauto.
Qed.

Lemma tables_mirror_each_other_witness :
  let m := w_mem world_two_devices in
  reachable (m, []) ∧
  (∀ sid, map_has sid (activeUsers m) ↔ map_has sid (userRooms m))
  ∧ NoDup (activeUsers m).*1
  ∧ (∀ sid rooms, map_get sid (userRooms m) = Some rooms →
                  rooms = [public_hub])
  ∧ (∀ sid s, map_get sid (activeUsers m) = Some s → s_socketId s = sid).
Proof.
  intros m.
  assert (reachable (m, [])) as Hreach
    by exact (exec_all_reachable env_ok
                [("s1", UserJoin alice); ("s2", UserJoin alice)]).
  split; [exact Hreach|].
  exact (tables_mirror_each_other m [] Hreach).
Defined.




(** *** Interleaved likes *)

(** Every move of the scheduler is a step, or no step, of the
    interleaved semantics. *)
Lemma step_istep e s mv :
  rtc istep (sy_mem s, sy_pool s)
    (sy_mem (step e s mv), sy_pool (step e s mv)).
Proof.
  destruct mv as [sid ev|i]; simpl.
  - unfold deliver.
    destruct (sync e (handler sid ev) (sy_mem s) (sy_tick s))
      as [[[m n] o] rest] eqn:Hsync. simpl.
    apply rtc_once. by eapply istep_event.
  - unfold resume.
    destruct (sy_pool s !! i) as [[| | | | |A r k]|] eqn:Hi; try done.
    destruct (store_call e (sy_tick s) r (sy_store s)) as [res st].
    destruct (sync e (k res) (sy_mem s) (S (sy_tick s)))
      as [[[m n] o] rest] eqn:Hsync. simpl.
    apply rtc_once. rewrite <- (take_drop_middle _ _ _ Hi) at 1.
    by eapply istep_resume.
Qed.

Lemma run_schedule_istep e mvs s :
  rtc istep (sy_mem s, sy_pool s)
    (sy_mem (run_schedule e mvs s), sy_pool (run_schedule e mvs s)).
Proof.
  revert s. induction mvs as [|mv mvs IH]; intros s; simpl; [done|].
  etrans; [apply (step_istep e s mv)|]. apply IH.
Qed.

(** [X25] Concurrent likes lose an update.  Two users who have not liked
    a message send 'like' at the same time: both reads are answered
    before either write.  Every store call resolves and each user's
    message:liked is broadcast, yet the [likes] array left in the log
    holds the second user only: the first like is overwritten.  Handled
    one after the other, the same two events leave both users in the
    array. *)
Theorem concurrent_likes_lose_update
    e sid1 sid2 user1 user2 messageId doc m st n :
  let likes := m_likes (d_data doc) in
  let u1 := s_userId user1 in
  let u2 := s_userId user2 in
  let room := str_or (Some (m_roomId (d_data doc))) public_hub in
  let like := MessageLike {| l_messageId := messageId; l_action := "like" |} in
  let s := run_schedule e (racing_likes sid1 sid2 messageId)
             {| sy_mem := m; sy_store := st; sy_tick := n;
                sy_pool := []; sy_trace := [] |} in
  let w := (exec_all e [(sid1, like); (sid2, like)]
              {| w_mem := m; w_store := st; w_tick := n |}).1 in
  map_get sid1 (activeUsers m) = Some user1 →
  map_get sid2 (activeUsers m) = Some user2 →
  u1 ≠ u2 →
  chatMessages st !! messageId = Some doc →
  u1 ∉ likes →
  u2 ∉ likes →
  (∀ i, (i < 4)%nat → fails e (i + n) = false) →
  sy_pool s = []
  ∧ all_resolved (sy_trace s) = true
  ∧ emissions (sy_trace s)
    = [(ToRoom room, MessageLiked messageId (likes ++ [u1]) u1 "like");
       (ToRoom room, MessageLiked messageId (likes ++ [u2]) u2 "like")]
  ∧ (∃ d, chatMessages (sy_store s) !! messageId = Some d
          ∧ m_likes (d_data d) = likes ++ [u2])
  ∧ (∃ d, chatMessages (w_store w) !! messageId = Some d
          ∧ m_likes (d_data d) = likes ++ [u1; u2]).
Proof.
  intros likes u1 u2 room like s w Huser1 Huser2 Hne Hdoc Hu1 Hu2 Hok.
  pose proof (Hok 0%nat ltac:(lia)) as H0.
  pose proof (Hok 1%nat ltac:(lia)) as H1.
  pose proof (Hok 2%nat ltac:(lia)) as H2.
  pose proof (Hok 3%nat ltac:(lia)) as H3. simpl in H0, H1, H2, H3.
  assert (react "like" u1 likes = likes ++ [u1]) as Hr1
    by (by apply react_like_fresh).
  assert (react "like" u2 likes = likes ++ [u2]) as Hr2
    by (by apply react_like_fresh).
  assert (react "like" u2 (likes ++ [u1]) = likes ++ [u1; u2]) as Hr12.
  { rewrite react_like_fresh.
    - by rewrite <- app_assoc.
    - rewrite elem_of_app, list_elem_of_singleton. intros [?|?]; done. }
  assert (s = {| sy_mem := m;
                 sy_store :=
                   {| chatPresence := chatPresence st;
                      chatMessages :=
                        <[messageId :=
                            {| d_data := with_likes (likes ++ [u2]) (d_data doc);
                               d_createdAt := d_createdAt doc |}]>
                          (<[messageId :=
                               {| d_data := with_likes (likes ++ [u1])
                                              (d_data doc);
                                  d_createdAt := d_createdAt doc |}]>
                             (chatMessages st)) |};
                 sy_tick := S (S (S (S n)));
                 sy_pool := [];
                 sy_trace :=
                   [Called (MessagesGet messageId) true;
                    Called (MessagesGet messageId) true;
                    Called (MessagesUpdateLikes messageId (likes ++ [u1])) true;
                    Did (Emit (ToRoom room)
                           (MessageLiked messageId (likes ++ [u1]) u1 "like"));
                    Called (MessagesUpdateLikes messageId (likes ++ [u2])) true;
                    Did (Emit (ToRoom room)
                           (MessageLiked messageId (likes ++ [u2]) u2 "like"))]
              |}) as ->.
  { subst s. unfold run_schedule, racing_likes. simpl.
    unfold deliver. simpl. rewrite Huser1. simpl. rewrite Huser2. simpl.
    unfold resume. simpl. rewrite store_call_ok by done. simpl.
    rewrite Hdoc. simpl. rewrite store_call_ok by done. simpl.
    rewrite Hdoc. simpl. rewrite store_call_ok by done. simpl.
    rewrite Hdoc. simpl. rewrite store_call_ok by done. simpl.
    rewrite lookup_insert_eq. simpl.
    fold likes u1 u2 room. by rewrite Hr1, Hr2. }
  split_and!; try done.
  - simpl. eexists. split; [apply lookup_insert_eq|done].
  - subst w like. cbn [exec_all handler].
    rewrite (like_resolved_run e sid1 _ _ user1 doc) by done.
    cbn [w_mem w_store w_tick l_messageId l_action chatMessages].
    erewrite (like_resolved_run e sid2);
      [|exact Huser2|simpl; apply lookup_insert_eq|done|done].
    simpl. eexists. split; [apply lookup_insert_eq|]. simpl.
    fold likes u1 u2. by rewrite Hr1, Hr12.
Qed.

Lemma concurrent_likes_lose_update_witness :
  let s := run_schedule env_ok (racing_likes "s1" "s2" "doc7") system_pair in
  let w := (exec_all env_ok
              [("s1", MessageLike {| l_messageId := "doc7";
                                     l_action := "like" |});
               ("s2", MessageLike {| l_messageId := "doc7";
                                     l_action := "like" |})] world_pair).1 in
  map_get "s1" (activeUsers (w_mem world_pair))
  = Some (new_session "s1" alice 1000) ∧
  map_get "s2" (activeUsers (w_mem world_pair))
  = Some (new_session "s2" bob 1002) ∧
  chatMessages (w_store world_pair) !! "doc7" = Some pair_doc ∧
  sy_pool s = []
  ∧ all_resolved (sy_trace s) = true
  ∧ emissions (sy_trace s)
    = [(ToRoom public_hub, MessageLiked "doc7" ["u-alice"] "u-alice" "like");
       (ToRoom public_hub, MessageLiked "doc7" ["u-bob"] "u-bob" "like")]
  ∧ (∃ d, chatMessages (sy_store s) !! "doc7" = Some d
          ∧ m_likes (d_data d) = ["u-bob"])
  ∧ (∃ d, chatMessages (w_store w) !! "doc7" = Some d
          ∧ m_likes (d_data d) = ["u-alice"; "u-bob"]).
Proof.
  intros s w.
  assert (chatMessages (w_store world_pair) !! "doc7" = Some pair_doc)
    as Hdoc by (by vm_compute).
  split; [reflexivity|]. split; [reflexivity|]. split; [exact Hdoc|].
  exact (concurrent_likes_lose_update env_ok "s1" "s2"
           (new_session "s1" alice 1000) (new_session "s2" bob 1002)
           "doc7" pair_doc (w_mem world_pair) (w_store world_pair)
           (w_tick world_pair) eq_refl eq_refl ltac:(discriminate) Hdoc
           ltac:(apply not_elem_of_nil) ltac:(apply not_elem_of_nil)
           (fun _ _ => eq_refl)).
Defined.

(** *** The log across events *)

(** [X26] message:send only appends: whatever the store answers, the
    tables and the presence records are unchanged and every document
    that was in the log is still there, unchanged. *)
Theorem send_only_appends e sid messageData w w' t :
  exec e (message_send sid messageData) w = (w', t) →
  w_mem w' = w_mem w
  ∧ chatPresence (w_store w') = chatPresence (w_store w)
  ∧ ∀ id doc, chatMessages (w_store w) !! id = Some doc →
              chatMessages (w_store w') !! id = Some doc.
Proof.
  intros Hrun. unfold message_send in Hrun. simpl in Hrun.
  destruct (map_get sid (activeUsers (w_mem w))) as [user|];
    simpl in Hrun; [|by simplify_eq].
  unfold store_call in Hrun.
  destruct (fails e _); simpl in Hrun; [by simplify_eq|].
  destruct (chatMessages (w_store w) !! autoId e _) eqn:Hfresh;
    simpl in Hrun; simplify_eq; [done|]. simpl.
  split; [done|]. split; [done|]. intros id doc Hdoc.
  rewrite lookup_insert_ne; [done|]. intros <-. congruence.
Qed.

Lemma send_only_appends_witness :
  let run := exec env_ok (message_send "s1" hello) world_hello in
  w_mem run.1 = w_mem world_hello
  ∧ chatPresence (w_store run.1) = chatPresence (w_store world_hello)
  ∧ ∀ id doc, chatMessages (w_store world_hello) !! id = Some doc →
              chatMessages (w_store run.1) !! id = Some doc.
Proof.
  intros run.
  exact (send_only_appends env_ok "s1" hello world_hello run.1 run.2 eq_refl).
Defined.

Lemma presence_only_likes_nodup st pres :
  likes_nodup st →
  likes_nodup {| chatPresence := pres; chatMessages := chatMessages st |}.
Proof. done. Qed.

Lemma handler_likes_nodup e sid ev w :
  likes_nodup (w_store w) → likes_nodup (w_store (exec e (handler sid ev) w).1).
Proof.
  intros Hinv. destruct ev as [d|d|d|d|d| |d]; simpl.
  - (* user:join *)
    unfold user_join. simpl. unfold store_call.
    destruct (fails e _); simpl; [done|]. by apply presence_only_likes_nodup.
  - (* message:send *)
    unfold message_send. simpl.
    destruct (map_get sid (activeUsers (w_mem w))); simpl; [|done].
    unfold store_call. destruct (fails e _); simpl; [done|].
    destruct (chatMessages (w_store w) !! autoId e _) eqn:Hfresh; simpl;
      [done|].
    intros id doc. simpl. destruct (decide (autoId e (S (S (S (w_tick w)))) = id))
      as [<-|Hne].
    + rewrite lookup_insert_eq. intros [= <-]. simpl. apply NoDup_nil_2.
    + rewrite lookup_insert_ne by done. apply Hinv.
  - (* typing:start *)
    unfold typing_start. simpl.
    by destruct (map_get sid (activeUsers (w_mem w))).
  - (* typing:stop *)
    unfold typing_stop. simpl.
    by destruct (map_get sid (activeUsers (w_mem w))).
  - (* message:like *)
    unfold message_like. simpl.
    destruct (map_get sid (activeUsers (w_mem w))) as [user|]; simpl; [|done].
    unfold store_call at 1. destruct (fails e (w_tick w)); simpl; [done|].
    destruct (chatMessages (w_store w) !! l_messageId d) as [doc|] eqn:Hdoc;
      simpl; [|done].
    unfold store_call. destruct (fails e (S (w_tick w))); simpl; [done|].
    rewrite Hdoc. simpl. intros id doc'. simpl.
    destruct (decide (l_messageId d = id)) as [<-|Hne].
    + rewrite lookup_insert_eq. intros [= <-]. simpl.
      apply react_NoDup. by eapply Hinv.
    + rewrite lookup_insert_ne by done. apply Hinv.
  - (* disconnect *)
    unfold disconnect. simpl.
    destruct (map_get sid (activeUsers (w_mem w))) as [user|]; simpl; [|done].
    unfold store_call. destruct (fails e (w_tick w)); simpl; [done|].
    destruct (chatPresence (w_store w) !! s_userId user); simpl; [|done].
    rewrite exec_for_each. simpl. by apply presence_only_likes_nodup.
  - (* messages:history *)
    by destruct (history_outcome e sid d w _ _
                   (surjective_pairing _)) as (_ & -> & _).
Qed.

(** [X27] Across any sequence of events handled one after the other,
    with any answers of the store, starting from a log whose [likes]
    arrays are duplicate-free (the empty log in particular), every
    [likes] array of the log stays duplicate-free. *)
Theorem likes_stay_duplicate_free e evs w :
  likes_nodup (w_store w) →
  likes_nodup (w_store (exec_all e evs w).1).
Proof.
  revert w. induction evs as [|[sid ev] evs IH]; intros w Hinv; simpl;
    [done|].
  pose proof (handler_likes_nodup e sid ev w Hinv) as Hstep.
  destruct (exec e (handler sid ev) w) as [w1 t1]. simpl in Hstep.
  specialize (IH w1 Hstep). by destruct (exec_all e evs w1).
Qed.

Lemma likes_stay_duplicate_free_witness :
  let evs := [("s1", UserJoin alice); ("s1", MessageSend hello);
              ("s1", MessageLike like_hello);
              ("s1", MessageLike like_hello)] in
  likes_nodup (w_store world_init) ∧
  likes_nodup (w_store (exec_all env_ok evs world_init).1).
Proof.
  intros evs.
  assert (likes_nodup (w_store world_init)) as Hinit.
  { intros id doc Hdoc. simpl in Hdoc. by rewrite lookup_empty in Hdoc. }
  split; [exact Hinit|].
  exact (likes_stay_duplicate_free env_ok evs world_init Hinit).
Defined.
